(** * template-create-project: the scaffolding wizard of [src/cli.js]

    A shallow embedding of the command line tool and the properties of its
    specification.

    Conventions of the embedding.
    - A JavaScript string is a [string]; a character stands for one UTF-16
      code unit below 256 (Basic Latin and Latin-1 Supplement).  On such
      strings the library functions modelled below ([trim], [split],
      [toLowerCase], [replaceAll], ...) agree with ECMAScript.
    - A promise is the value it settles to ([Settled]); an [async] function
      is a computation that returns one, and [await] rethrows a rejection.
      The operations of one fan-out run one after the other, in array order.
    - The outside world (network, shell, file system, clock, console input)
      is a record of answers, [World]; what the program does to it is a
      trace of [Event]s. *)

From Stdlib Require Import List String Ascii Bool Arith NArith ZArith Lia.
From Stdlib Require Import DecimalString DecimalPos DecimalN.
Import ListNotations.

Local Open Scope list_scope.
Local Open Scope string_scope.

(** ** Characters *)

Module Char.

Definition code (c : ascii) : N := N_of_ascii c.

(** [WhiteSpace] and [LineTerminator] of ECMAScript, below 256: TAB, LF, VT,
    FF, CR, SP and NBSP.  It is the class of [\s] and the one [trim] and
    [parseInt] strip. *)
Definition isWhiteSpace (c : ascii) : bool :=
  let n := code c in
  ((9 <=? n) && (n <=? 13) || (n =? 32) || (n =? 160))%N.

(** The code units with a lowercase mapping: A-Z and the Latin-1 capitals
    (U+00C0-U+00DE but the multiplication sign U+00D7). *)
Definition isUpperCase (c : ascii) : bool :=
  let n := code c in
  ((65 <=? n) && (n <=? 90) || (192 <=? n) && (n <=? 222) && negb (n =? 215))%N.

Definition toLowerCase (c : ascii) : ascii :=
  if isUpperCase c then ascii_of_N (code c + 32) else c.

Definition isDigit (c : ascii) : bool :=
  let n := code c in ((48 <=? n) && (n <=? 57))%N.

Definition LF : ascii := ascii_of_nat 10.
Definition ESC : ascii := ascii_of_nat 27.
Definition QUOTE : ascii := ascii_of_nat 34.

End Char.

(** ** Strings: the methods of [String.prototype] the program calls *)

Module Str.

Fixpoint all (p : ascii -> bool) (s : string) : bool :=
  match s with
  | EmptyString => true
  | String c r => p c && all p r
  end.

Definition noWhiteSpace (s : string) : bool :=
  all (fun c => negb (Char.isWhiteSpace c)) s.

Definition noUpperCase (s : string) : bool :=
  all (fun c => negb (Char.isUpperCase c)) s.

Fixpoint drop (n : nat) (s : string) : string :=
  match n, s with
  | O, _ => s
  | S k, String _ r => drop k r
  | S _, EmptyString => EmptyString
  end.

(** [String.prototype.trimStart] *)
Fixpoint trimStart (s : string) : string :=
  match s with
  | EmptyString => EmptyString
  | String c r => if Char.isWhiteSpace c then trimStart r else s
  end.

(** [String.prototype.trimEnd] *)
Fixpoint trimEnd (s : string) : string :=
  match s with
  | EmptyString => EmptyString
  | String c r =>
      match trimEnd r with
      | EmptyString => if Char.isWhiteSpace c then EmptyString else String c EmptyString
      | r' => String c r'
      end
  end.

(** [String.prototype.trim]: both ends. *)
Definition trim (s : string) : string := trimEnd (trimStart s).

(** [String.prototype.toLowerCase] *)
Fixpoint toLowerCase (s : string) : string :=
  match s with
  | EmptyString => EmptyString
  | String c r => String (Char.toLowerCase c) (toLowerCase r)
  end.

(** [Array.prototype.join] on an array of strings. *)
Fixpoint join (sep : string) (l : list string) : string :=
  match l with
  | [] => EmptyString
  | [x] => x
  | x :: rest => x ++ sep ++ join sep rest
  end.

(** [s.split(/\s+/)].  The splitter of ECMAScript walks the string with the
    end [p] of the last match and a cursor [q]: where [\s+] matches at [q] it
    closes the piece [p..q) and jumps behind the whole run; the rest of the
    string is the last piece.  Here the head of the result is the piece being
    built and [inRun] tells that the cursor is inside a run already closed. *)
Fixpoint splitWhiteSpace (inRun : bool) (s : string) : list string :=
  match s with
  | EmptyString => [EmptyString]
  | String c r =>
      if Char.isWhiteSpace c then
        if inRun then splitWhiteSpace true r
        else EmptyString :: splitWhiteSpace true r
      else
        match splitWhiteSpace false r with
        | piece :: pieces => String c piece :: pieces
        | [] => [String c EmptyString]
        end
  end.

Definition split_ws (s : string) : list string := splitWhiteSpace false s.

(** [GetSubstitution] of ECMAScript for a string pattern (no captures): in
    the replacement text [$$] is a dollar, [$&] the matched text, [$`] the
    text before the match and [$'] the text after it; any other dollar stands
    for itself. *)
Fixpoint GetSubstitution (matched before after template : string) : string :=
  match template with
  | EmptyString => EmptyString
  | String c r =>
      if Ascii.eqb c "$" then
        match r with
        | String d r' =>
            if Ascii.eqb d "$" then String "$" (GetSubstitution matched before after r')
            else if Ascii.eqb d "&" then matched ++ GetSubstitution matched before after r'
            else if Ascii.eqb d "`" then before ++ GetSubstitution matched before after r'
            else if Ascii.eqb d "'" then after ++ GetSubstitution matched before after r'
            else String c (GetSubstitution matched before after r)
        | EmptyString => String c EmptyString
        end
      else String c (GetSubstitution matched before after r)
  end.

(** The scan of [replaceAll] and [replace] for a non-empty search string:
    [before] is the text already passed, [skip] the number of characters
    still inside the last match, [all] whether to go on after a match. *)
Fixpoint replaceScan (all : bool) (key template : string)
    (before : string) (skip : nat) (found : bool) (s : string) : string :=
  match s with
  | EmptyString => EmptyString
  | String c r =>
      match skip with
      | S k => replaceScan all key template (before ++ String c EmptyString) k found r
      | O =>
          if (all || negb found) && prefix key s then
            GetSubstitution key before (drop (String.length key) s) template
            ++ replaceScan all key template (before ++ String c EmptyString)
                 (String.length key - 1) true r
          else
            String c (replaceScan all key template (before ++ String c EmptyString) 0 found r)
      end
  end.

(** An empty search string matches before every character and at the end. *)
Fixpoint replaceEverywhere (template : string) (before : string) (s : string) : string :=
  GetSubstitution EmptyString before s template ++
  match s with
  | EmptyString => EmptyString
  | String c r => String c (replaceEverywhere template (before ++ String c EmptyString) r)
  end.

(** [s.replaceAll(key, template)] with a string [key]. *)
Definition replaceAll (s key template : string) : string :=
  match key with
  | EmptyString => replaceEverywhere template EmptyString s
  | _ => replaceScan true key template EmptyString 0 false s
  end.

(** [s.replace(key, template)] with a string [key]: the first match only. *)
Definition replace (s key template : string) : string :=
  match key with
  | EmptyString => GetSubstitution EmptyString EmptyString s template ++ s
  | _ => replaceScan false key template EmptyString 0 false s
  end.

(** Replacing every occurrence by a text taken literally: what [replaceAll]
    does when the replacement holds no dollar. *)
Fixpoint substituteScan (key value : string) (skip : nat) (s : string) : string :=
  match s with
  | EmptyString => EmptyString
  | String c r =>
      match skip with
      | S k => substituteScan key value k r
      | O =>
          if prefix key s then value ++ substituteScan key value (String.length key - 1) r
          else String c (substituteScan key value 0 r)
      end
  end.

Definition substituteAll (s key value : string) : string :=
  substituteScan key value 0 s.

End Str.

(** ** Numbers and dates *)

Module Num.

Definition digitValue (c : ascii) : option N :=
  let n := Char.code c in
  if Char.isDigit c then Some (n - 48)%N
  else if ((97 <=? n) && (n <=? 122))%N then Some (n - 87)%N
  else if ((65 <=? n) && (n <=? 90))%N then Some (n - 55)%N
  else None.

(** The value of the longest prefix of [s] made of digits of [radix], if
    any: [acc] is the value read so far. *)
Fixpoint digits (radix : N) (acc : option N) (s : string) : option N :=
  match s with
  | EmptyString => acc
  | String c r =>
      match digitValue c with
      | Some d =>
          if (d <? radix)%N
          then digits radix (Some (match acc with Some a => a * radix + d | None => d end)%N) r
          else acc
      | None => acc
      end
  end.

Definition signed (negative : bool) (radix : N) (s : string) : option Z :=
  match digits radix None s with
  | Some n => Some (if negative then (- Z.of_N n)%Z else Z.of_N n)
  | None => None
  end.

Definition unprefixed (negative : bool) (s : string) : option Z :=
  match s with
  | String "0" (String x r) =>
      if (Ascii.eqb x "x" || Ascii.eqb x "X")%bool then signed negative 16 r
      else signed negative 10 s
  | _ => signed negative 10 s
  end.

(** [Number.parseInt(s)] with no radix; [None] is NaN.  The result is the
    exact integer: a Number rounds integers above 2^53 and makes the largest
    ones Infinity, which [Number.isInteger] refuses, and neither changes a
    comparison with the length of an array. *)
Definition parseInt (s : string) : option Z :=
  match Str.trimStart s with
  | String "-" r => unprefixed true r
  | String "+" r => unprefixed false r
  | t => unprefixed false t
  end.

Definition toString (n : N) : string := NilEmpty.string_of_uint (N.to_uint n).

End Num.

Record Date := { year : N; month : N; day : N }.

(** [date.toLocaleDateString("en-US")]: month/day/year, numeric, unpadded. *)
Definition toLocaleDateString_enUS (d : Date) : string :=
  Num.toString (month d) ++ "/" ++ Num.toString (day d) ++ "/" ++ Num.toString (year d).

(** ** Effects: promises, exceptions, exit, console and trace *)

(** A JavaScript [Error]: its message.  Where the code hands the object
    itself to [console.error] (cli.js, 240) the trace records it by this
    message; the stack or the fields Node prints with it are not part of
    the model. *)
Record Error := { message : string }.

(** What the program does to the outside, in the order it does it. *)
Inductive Event :=
| ELog (text : string)               (* console.log *)
| EError (text : string)             (* console.error *)
| EClear                             (* console.clear *)
| EQuestion (query : string)         (* rl.question *)
| EFetch (url : string)              (* fetch *)
| EExec (command : string)           (* child_process.exec *)
| EExistsSync (path : string)        (* fs.existsSync *)
| EReadFileSync (path : string)      (* fs.readFileSync *)
| EReadFile (path : string)          (* fs.promises.readFile *)
| EWriteFile (path data : string)    (* fs.promises.writeFile, the text of the data *)
| EUnlink (path : string)            (* fs.promises.unlink *)
| ERm (path : string).               (* fs.promises.rm, recursive *)

(** A settled promise. *)
Inductive Settled (A : Type) :=
| Fulfilled (value : A)
| Rejected (reason : Error).
Arguments Fulfilled {A} value.
Arguments Rejected {A} reason.

(** How a piece of the program ends: it returns, it throws, or it has called
    [process.exit]. *)
Inductive Outcome (A : Type) :=
| Done (value : A)
| Thrown (error : Error)
| Exited (code : Z).
Arguments Done {A} value.
Arguments Thrown {A} error.
Arguments Exited {A} code.

(** The result of running a computation on the lines still to come from the
    console: its outcome, the lines left, the events it made. *)
Record Run (A : Type) := mkRun {
  outcome : Outcome A;
  rest : list string;
  events : list Event
}.
Arguments mkRun {A} outcome rest events.
Arguments outcome {A} r.
Arguments rest {A} r.
Arguments events {A} r.

Definition M (A : Type) : Type := list string -> Run A.

Definition ret {A} (a : A) : M A := fun input => mkRun (Done a) input [].

(** A run that comes after the events [before]. *)
Definition after {A} (before : list Event) (r : Run A) : Run A :=
  match r with
  | mkRun o input ev => mkRun o input (before ++ ev)%list
  end.

Definition bind {A B} (m : M A) (f : A -> M B) : M B :=
  fun input =>
    match m input with
    | mkRun (Done a) input' ev => after ev (f a input')
    | mkRun (Thrown e) input' ev => mkRun (Thrown e) input' ev
    | mkRun (Exited c) input' ev => mkRun (Exited c) input' ev
    end.

Declare Scope js_scope.
Delimit Scope js_scope with js.
Notation "x <- m ;; k" := (bind m (fun x => k))
  (at level 61, m at next level, right associativity) : js_scope.
Notation "m ;; k" := (bind m (fun _ => k))
  (at level 61, right associativity) : js_scope.
Local Open Scope js_scope.

Definition emit (e : Event) : M unit := fun input => mkRun (Done tt) input [e].

(** [throw e] *)
Definition throw {A} (e : Error) : M A := fun input => mkRun (Thrown e) input [].

(** [process.exit(code)] ends the program where it stands: no handler sees it. *)
Definition process_exit {A} (code : Z) : M A := fun input => mkRun (Exited code) input [].

(** [try { body } catch (error) { handler }] *)
Definition tryCatch {A} (body : M A) (handler : Error -> M A) : M A :=
  fun input =>
    match body input with
    | mkRun (Thrown e) input' ev => after ev (handler e input')
    | r => r
    end.

(** The promise of a call of an [async] function whose body is [body]: a
    value returned fulfils it, an exception rejects it. *)
Definition async {A} (body : M A) : M (Settled A) :=
  fun input =>
    match body input with
    | mkRun (Done a) input' ev => mkRun (Done (Fulfilled a)) input' ev
    | mkRun (Thrown e) input' ev => mkRun (Done (Rejected e)) input' ev
    | mkRun (Exited c) input' ev => mkRun (Exited c) input' ev
    end.

(** An [async] function that returns a promise: its own promise follows the
    returned one. *)
Definition asyncOf {A} (body : M (Settled A)) : M (Settled A) :=
  p <- async body ;;
  ret match p with
      | Fulfilled q => q
      | Rejected e => Rejected e
      end.

(** [await p] *)
Definition await {A} (p : Settled A) : M A :=
  match p with
  | Fulfilled a => ret a
  | Rejected e => throw e
  end.

(** The calls of [array.map(f)], in order. *)
Fixpoint mapM {A B} (f : A -> M B) (l : list A) : M (list B) :=
  match l with
  | [] => ret []
  | a :: l' => b <- f a ;; bs <- mapM f l' ;; ret (b :: bs)
  end.

(** [Promise.allSettled(promises)]: fulfilled with every outcome, whatever
    each is. *)
Definition Promise_allSettled {A} (promises : list (Settled A)) : Settled (list (Settled A)) :=
  Fulfilled promises.

Definition console_log (text : string) : M unit := emit (ELog text).
Definition console_error (text : string) : M unit := emit (EError text).
Definition console_clear : M unit := emit EClear.

(** [rl.on("close", function () { process.exit(0); })] (cli.js, 16-18). *)
Definition onClose {A} : M A := process_exit 0%Z.

(** [rl.question(query)]: the query is written and the next line of the
    console is the answer; when the console input has ended the interface
    closes, which runs [onClose].

    The lines of the input are the answers of an operator who answers each
    question when it is asked, and who ends the input, if at all, on a
    question.  [readline] drops a line typed while no question waits, so
    such lines are no part of the input here; an input that ends at another
    moment is the subject of [cliUntil] below. *)
Definition rl_question (query : string) : M (Settled string) :=
  emit (EQuestion query) ;;
  fun input =>
    match input with
    | line :: more => mkRun (Done (Fulfilled line)) more []
    | [] => onClose input
    end.

(** [rl.close()] emits "close". *)
Definition rl_close : M unit := onClose.

(** ** Data model *)

(** An item of the answer of the search endpoint. *)
Module RepoItem.
Record t := make {
  name : string;
  description : string;
  html_url : string;
  clone_url : string
}.
End RepoItem.

Module Template.
Record t := make {
  name : string;
  description : string;
  htmlUrl : string;
  gitUrl : string
}.
End Template.

Module ProjectSetup.
Record t := make {
  template : Template.t;
  id : string;
  name : string;
  userName : string;
  userEmail : string
}.
Definition set_template (v : Template.t) (p : t) : t :=
  make v (id p) (name p) (userName p) (userEmail p).
Definition set_id (v : string) (p : t) : t :=
  make (template p) v (name p) (userName p) (userEmail p).
Definition set_name (v : string) (p : t) : t :=
  make (template p) (id p) v (userName p) (userEmail p).
Definition set_userName (v : string) (p : t) : t :=
  make (template p) (id p) (name p) v (userEmail p).
Definition set_userEmail (v : string) (p : t) : t :=
  make (template p) (id p) (name p) (userName p) v.
End ProjectSetup.

(** An entry of the [project] array of [__template.json]. *)
Record ManifestEntry := {
  file : string;
  keywords : list string
}.

Record UserInfo := {
  gitName : string;
  gitEmail : string
}.

(** The answers of the outside world. *)
Record World := {
  (** the lines the operator answers the questions with, until the console
      input ends *)
  stdin : list string;
  (** [(await fetch(url)).json()], its [items]: rejected when the request or
      the parsing fails or the answer has no such array *)
  fetchItems : string -> Settled (list RepoItem.t);
  (** [exec(command)]: the standard output, or the error of the command *)
  exec : string -> Settled string;
  existsSync : string -> bool;
  (** [JSON.parse(fs.readFileSync(path))["project"]] as an array of entries:
      rejected when the file is missing or is not such a document *)
  readManifest : string -> Settled (list ManifestEntry);
  (** [fs.promises.readFile(path)], as the text [toString()] makes of the
      buffer read.  File data is text throughout the model: the bytes of a
      file that is not UTF-8 text, which [filterFile] writes back unchanged
      only when none of the listed keywords is one of the six, are not
      represented *)
  readFile : string -> Settled string;
  (** [fs.promises.writeFile(path, data)], by the text of the data *)
  writeFile : string -> string -> Settled unit;
  unlink : string -> Settled unit;
  rm : string -> Settled unit;
  (** [new Date()] *)
  now : Date;
  (** [process.cwd()] *)
  cwd : string;
  path_join : string -> string -> string;
  path_resolve : string -> string -> string
}.

(** ** Utility functions (cli.js, 201-246) *)

(** The command line of cli.js, 137. *)
Definition cloneCommand (targetDirectory templateGitUrl : string) : string :=
  "git clone --depth 1 " ++ templateGitUrl ++ " "
  ++ String Char.QUOTE targetDirectory ++ String Char.QUOTE "".

(** The error of cli.js, 214. *)
Definition directoryConflict (targetDirectory : string) : Error :=
  {| message := "Target directory '" ++ targetDirectory ++ "' already exists'" |}.

(** The object of cli.js, 229-232. *)
Definition fallbackUserInfo : UserInfo := {| gitName := "Unknown"; gitEmail := "" |}.

(** cli.js, 205-210. *)
Definition convertStringToProjectId (projectName : string) : string :=
  let splits := Str.split_ws (Str.trim projectName) in
  let splits := map Str.toLowerCase splits in
  Str.join "-" splits.

Section Program.

Variable w : World.

(** cli.js, 212-216. *)
Definition checkAvailabilityOfDirectory (targetDirectory : string) : M unit :=
  emit (EExistsSync targetDirectory) ;;
  if existsSync w targetDirectory
  then throw (directoryConflict targetDirectory)
  else ret tt.

(** cli.js, 218-220. *)
Definition getProjectTargetDirectory (projectSetup : ProjectSetup.t) : string :=
  path_join w (cwd w) (ProjectSetup.id projectSetup).

(** cli.js, 236-246: the callback rejects on an error, after printing it
    (the [Error] object, recorded by its message); the [resolve] that
    follows a [reject] changes nothing.  The command is the line handed to
    [exec]; what the shell makes of it is the world's answer. *)
Definition executeShell (command : string) : M (Settled string) :=
  emit (EExec command) ;;
  match exec w command with
  | Rejected error => console_error (message error) ;; ret (Rejected error)
  | Fulfilled stdout => ret (Fulfilled stdout)
  end.

(** cli.js, 222-234. *)
Definition getCurrentUserInfo : M (Settled UserInfo) :=
  async (tryCatch
    (p <- executeShell "git config user.name" ;;
     name <- await p ;;
     let gitName := Str.replace name (String Char.LF "") "" in
     p <- executeShell "git config user.email" ;;
     email <- await p ;;
     let gitEmail := Str.replace email (String Char.LF "") "" in
     ret {| gitName := gitName; gitEmail := gitEmail |})
    (fun _ => ret fallbackUserInfo)).

(** ** Create project (cli.js, 110-199) *)

(** The promisified [exec] of cli.js, 7. *)
Definition exec_promise (command : string) : M (Settled string) :=
  emit (EExec command) ;; ret (exec w command).

(** cli.js, 135-142.  The promise of [exec] is returned, not awaited: its
    rejection passes the [catch] of this function and reaches the caller. *)
Definition downloadProjectTemplateData (targetDirectory templateGitUrl : string)
  : M (Settled string) :=
  asyncOf (tryCatch
    (exec_promise (cloneCommand targetDirectory templateGitUrl))
    (fun _ =>
       console_error "Error in connection with the template repository" ;;
       process_exit 9)).

(** The [switch] of cli.js, 154-173: one keyword applied to the text. *)
Definition filterKeyword (projectSetup : ProjectSetup.t) (fileData key : string) : string :=
  if key =? "webstart-project-id" then
    Str.replaceAll fileData key (ProjectSetup.id projectSetup)
  else if key =? "webstart-project-name" then
    Str.replaceAll fileData key (ProjectSetup.name projectSetup)
  else if key =? "webstart-project-author" then
    Str.replaceAll fileData key
      (ProjectSetup.userName projectSetup ++ " <" ++ ProjectSetup.userEmail projectSetup ++ ">")
  else if key =? "webstart-project-setupdate" then
    Str.replaceAll fileData key (toLocaleDateString_enUS (now w) ++ " (en-US)")
  else if key =? "webstart-template-url" then
    Str.replaceAll fileData key (Template.htmlUrl (ProjectSetup.template projectSetup))
  else if key =? "@webstart" then
    Str.replaceAll fileData key ("@" ++ ProjectSetup.id projectSetup)
  else fileData.

(** The [for] loop of cli.js, 153-174. *)
Definition filterText (projectSetup : ProjectSetup.t) (keys : list string) (fileData : string)
  : string :=
  fold_left (filterKeyword projectSetup) keys fileData.

Definition fs_promises_readFile (path : string) : M (Settled string) :=
  emit (EReadFile path) ;; ret (readFile w path).

Definition fs_promises_writeFile (path data : string) : M (Settled unit) :=
  emit (EWriteFile path data) ;; ret (writeFile w path data).

Definition fs_promises_unlink (path : string) : M (Settled unit) :=
  emit (EUnlink path) ;; ret (unlink w path).

Definition fs_promises_rm (path : string) : M (Settled unit) :=
  emit (ERm path) ;; ret (rm w path).

(** cli.js, 150-176.  [fileData] is the text of the file: the code turns
    the buffer it read into that text at the first listed keyword that is
    one of the six. *)
Definition filterFile (fileConfig : ManifestEntry) (dir : string)
    (projectSetup : ProjectSetup.t) : M (Settled unit) :=
  asyncOf (
    let filepath := path_resolve w dir (file fileConfig) in
    p <- fs_promises_readFile filepath ;;
    fileData <- await p ;;
    let fileData := filterText projectSetup (keywords fileConfig) fileData in
    fs_promises_writeFile filepath fileData).

(** [JSON.parse(fs.readFileSync(path))] and the [project] array of it. *)
Definition readProjectManifest (path : string) : M (list ManifestEntry) :=
  emit (EReadFileSync path) ;;
  match readManifest w path with
  | Fulfilled entries => ret entries
  | Rejected error => throw error
  end.

(** cli.js, 144-148. *)
Definition filterFiles (dir : string) (projectSetup : ProjectSetup.t)
  : M (Settled (list (Settled unit))) :=
  asyncOf (
    project <- readProjectManifest (path_resolve w dir "__template.json") ;;
    filePromises <- mapM (fun fileEntry => filterFile fileEntry dir projectSetup) project ;;
    ret (Promise_allSettled filePromises)).

(** cli.js, 178-184. *)
Definition removeTemplateFiles (filepath : string) : M (Settled (list (Settled unit))) :=
  asyncOf (
    p1 <- fs_promises_unlink (path_resolve w filepath "__template.json") ;;
    p2 <- fs_promises_unlink (path_resolve w filepath "LICENSE") ;;
    p3 <- fs_promises_rm (path_resolve w filepath ".git") ;;
    ret (Promise_allSettled [p1; p2; p3])).

Definition successMessage : string :=
  String Char.LF
    "Your project has been created. Please consult the README file how to proceed from here.".

(** The [try] block of [createProject], cli.js, 117-128. *)
Definition createSteps (workingDir : string) (projectSetup : ProjectSetup.t) : M unit :=
  checkAvailabilityOfDirectory (ProjectSetup.id projectSetup) ;;
  console_log "Downloading template..." ;;
  p <- downloadProjectTemplateData workingDir
         (Template.gitUrl (ProjectSetup.template projectSetup)) ;;
  _ <- await p ;;
  console_log "Filtering..." ;;
  p <- filterFiles workingDir projectSetup ;;
  _ <- await p ;;
  console_log "Cleanup..." ;;
  p <- removeTemplateFiles workingDir ;;
  _ <- await p ;;
  console_log successMessage.

(** cli.js, 113-133. *)
Definition createProject (projectSetup : ProjectSetup.t) : M (Settled unit) :=
  async (
    let workingDir := getProjectTargetDirectory projectSetup in
    tryCatch
      (createSteps workingDir projectSetup)
      (fun error =>
         console_error (message error) ;;
         process_exit 9)).

(** The [map] of cli.js, 191-196. *)
Definition templatesOf (items : list RepoItem.t) : list Template.t :=
  map (fun item =>
         Template.make (RepoItem.name item) (RepoItem.description item)
           (RepoItem.html_url item) (RepoItem.clone_url item)) items.

(** cli.js, 186-199. *)
Definition searchUrl : string :=
  "https://api.github.com/search/repositories?q="
  ++ "user%3Ajburmeis%20project-template%20in%3Atopics".

Definition fetchAvailableTemplates : M (Settled (list Template.t)) :=
  async (
    emit (EFetch searchUrl) ;;
    items <- await (fetchItems w searchUrl) ;;
    let templates := templatesOf items in
    ret templates).

(** ** User interface (cli.js, 33-108) *)

(** The texts of the wizard. *)
Definition fetchingMessage : string := "Fetching available project templates...".
Definition noTemplatesMessage : string := "No project templates available".
Definition availableMessage : string := "Available project templates: ".
Definition indexQuestion : string := "Select project template (type index number): ".
Definition invalidIndexMessage : string := "Invalid input - Expected valid template index".
Definition nameQuestion : string := "Enter project name: ".
Definition emptyNameMessage : string := "Invalid input - Expected non-empty project name".

(** Reading a property of [undefined] throws a [TypeError]. *)
Definition TypeError_undefined (property : string) : Error :=
  {| message := "Cannot read properties of undefined (reading '" ++ property ++ "')" |}.

(** [templates.length], where [templates] may be [undefined] ([None]). *)
Definition lengthOf {A} (array : option (list A)) : M nat :=
  match array with
  | Some l => ret (List.length l)
  | None => throw (TypeError_undefined "length")
  end.

(** [templates[i]] for an index inside the array. *)
Definition elementAt {A} (array : option (list A)) (i : Z) (placeholder : A) : M A :=
  match array with
  | Some l => ret (nth (Z.to_nat i) l placeholder)
  | None => throw (TypeError_undefined (NilEmpty.string_of_int (Z.to_int i)))
  end.

Definition when (condition : bool) (body : M unit) : M unit :=
  if condition then body else ret tt.

(** cli.js, 36-45: [None] is the [undefined] of the bare [return]. *)
Definition userInterfaceLoadTemplates : M (Settled (option (list Template.t))) :=
  async (
    console_log fetchingMessage ;;
    p <- fetchAvailableTemplates ;;
    templates <- await p ;;
    if Nat.eqb (List.length templates) 0 then
      console_log noTemplatesMessage ;;
      ret None
    else
      console_clear ;;
      ret (Some templates)).

Definition blue (text : string) : string :=
  String Char.ESC "[94m" ++ text ++ String Char.ESC "[0m".

(** The body of the loop of cli.js, 92-96, from index [i] on. *)
Fixpoint printTemplatesFrom (i : nat) (templates : list Template.t) : M unit :=
  match templates with
  | [] => ret tt
  | template :: more =>
      console_log (blue ("[" ++ Num.toString (N.of_nat i) ++ "] " ++ Template.name template ++ " ")) ;;
      console_log ("    " ++ Template.description template ++ String Char.LF "") ;;
      printTemplatesFrom (S i) more
  end.

(** cli.js, 90-97: the loop condition reads [templates.length]. *)
Definition printAvailableTemplates (templates : option (list Template.t)) : M unit :=
  console_log availableMessage ;;
  _ <- lengthOf templates ;;
  match templates with
  | Some l => printTemplatesFrom 0 l
  | None => ret tt
  end.

(** cli.js, 99-108. *)
Definition getSummaryString (projectSetup : ProjectSetup.t) : string :=
  let nl := String Char.LF "" in
  "Confirm new project:" ++ nl
  ++ "Project ID:    " ++ blue (ProjectSetup.id projectSetup) ++ nl
  ++ "Project Name:  " ++ blue (ProjectSetup.name projectSetup) ++ nl
  ++ "Project Type:  " ++ blue (Template.name (ProjectSetup.template projectSetup)) ++ nl
  ++ "User Name:     " ++ blue (ProjectSetup.userName projectSetup) ++ nl
  ++ "User Email:    " ++ blue (ProjectSetup.userEmail projectSetup) ++ nl
  ++ "Location:      " ++ blue (getProjectTargetDirectory projectSetup) ++ nl
  ++ "Continue and create project (Enter)?" ++ nl.

(** The test of cli.js, 60, with its short circuit: [true] when the index is
    refused. *)
Definition invalidTemplateIndex (templateIdx : option Z)
    (templates : option (list Template.t)) : M bool :=
  match templateIdx with
  | None => ret true
  | Some i =>
      if (i <? 0)%Z then ret true
      else len <- lengthOf templates ;; ret (Z.of_nat len <=? i)%Z
  end.

(** The object of cli.js, 49-55; its [template] starts as an empty string,
    of which nothing is read. *)
Definition emptyProjectSetup : ProjectSetup.t :=
  ProjectSetup.make (Template.make "" "" "" "") "" "" "" "".

(** cli.js, 47-88. *)
Definition userInterface (templates : option (list Template.t)) : M (Settled unit) :=
  async (
    let projectSetup := emptyProjectSetup in
    printAvailableTemplates templates ;;
    p <- rl_question indexQuestion ;;
    answer <- await p ;;
    let templateIdx := Num.parseInt answer in
    invalid <- invalidTemplateIndex templateIdx templates ;;
    when invalid
      (console_error invalidIndexMessage ;;
       process_exit 9) ;;
    template <- elementAt templates (match templateIdx with Some i => i | None => 0%Z end)
                  (ProjectSetup.template projectSetup) ;;
    let projectSetup := ProjectSetup.set_template template projectSetup in
    p <- rl_question nameQuestion ;;
    answer <- await p ;;
    let projectSetup := ProjectSetup.set_name (Str.trim answer) projectSetup in
    when (Nat.eqb (String.length (ProjectSetup.name projectSetup)) 0)
      (console_error emptyNameMessage ;;
       process_exit 9) ;;
    let projectSetup :=
      ProjectSetup.set_id (convertStringToProjectId (ProjectSetup.name projectSetup))
        projectSetup in
    p <- getCurrentUserInfo ;;
    info <- await p ;;
    let projectSetup := ProjectSetup.set_userName (gitName info) projectSetup in
    let projectSetup := ProjectSetup.set_userEmail (gitEmail info) projectSetup in
    console_clear ;;
    p <- rl_question (getSummaryString projectSetup) ;;
    _ <- await p ;;
    console_clear ;;
    p <- createProject projectSetup ;;
    _ <- await p ;;
    rl_close).

(** cli.js, 25-31. *)
Definition main : M (Settled unit) :=
  async (
    p <- userInterfaceLoadTemplates ;;
    templates <- await p ;;
    p <- userInterface templates ;;
    await p).

(** cli.js, 23: [main().then(() => process.exit())].  A rejection of [main]
    has no handler: Node raises it as an uncaught exception, which ends the
    process with status 1. *)
Definition script : M unit :=
  p <- main ;;
  match p with
  | Fulfilled _ => process_exit 0%Z
  | Rejected _ => process_exit 1%Z
  end.

End Program.

(** The run of the tool in a world, and the status the process ends with. *)
Definition cli (w : World) : Run unit := script w (stdin w).

Definition exitCode (w : World) : option Z :=
  match outcome (cli w) with
  | Exited code => Some code
  | _ => None
  end.

Definition trace (w : World) : list Event := events (cli w).

(** ** Scenarios *)

Module Scenario.

Definition readme : string :=
  "# webstart-project-id" ++ String Char.LF "Created webstart-project-setupdate".

Definition item : RepoItem.t :=
  RepoItem.make "web" "A web project" "https://github.com/jburmeis/web"
    "https://github.com/jburmeis/web.git".

Definition template : Template.t :=
  Template.make "web" "A web project" "https://github.com/jburmeis/web"
    "https://github.com/jburmeis/web.git".

Definition ok {A} (a : A) : Settled A := Fulfilled a.
Definition failed {A} (text : string) : Settled A := Rejected {| message := text |}.

(** A world with one template and a manifest with one file, given what the
    console, the catalog, the shell and the file system answer. *)
Definition make (input : list string) (items : list RepoItem.t) (lookup : bool)
    (taken : bool) (clone : Settled string) (manifest : Settled (list ManifestEntry))
    (read : Settled string) (write remove : Settled unit) : World := {|
  stdin := input;
  fetchItems := fun _ => ok items;
  exec := fun command =>
    if prefix "git clone" command then clone
    else if negb lookup then failed "Command failed"
    else if command =? "git config user.name" then ok ("Ada" ++ String Char.LF "")
    else ok ("ada@example.org" ++ String Char.LF "");
  existsSync := fun _ => taken;
  readManifest := fun _ => manifest;
  readFile := fun _ => read;
  writeFile := fun _ _ => write;
  unlink := fun _ => remove;
  rm := fun _ => remove;
  now := {| year := 2024; month := 1; day := 5 |};
  cwd := "/home/ada";
  path_join := fun a b => a ++ "/" ++ b;
  path_resolve := fun a b => a ++ "/" ++ b
|}.

Definition entries : list ManifestEntry :=
  [ {| file := "README.md";
       keywords := ["webstart-project-id"; "webstart-project-setupdate"] |} ].

(** Everything works. *)
Definition world (input : list string) : World :=
  make input [item] true false (ok "") (ok entries) (ok readme) (ok tt) (ok tt).

(** The catalog is empty. *)
Definition emptyCatalog (input : list string) : World :=
  make input [] true false (ok "") (ok entries) (ok readme) (ok tt) (ok tt).

(** The target directory exists. *)
Definition directoryTaken (input : list string) : World :=
  make input [item] true true (ok "") (ok entries) (ok readme) (ok tt) (ok tt).

(** The clone fails. *)
Definition cloneFails (input : list string) : World :=
  make input [item] true false (failed "Command failed: git clone") (ok entries) (ok readme)
    (ok tt) (ok tt).

(** The template has no manifest. *)
Definition noManifest (input : list string) : World :=
  make input [item] true false (ok "") (failed "ENOENT: no such file or directory")
    (ok readme) (ok tt) (ok tt).

(** No file can be read, written or removed. *)
Definition brokenFiles (input : list string) : World :=
  make input [item] true false (ok "") (ok entries) (failed "EACCES: permission denied")
    (failed "EACCES: permission denied") (failed "ENOENT: no such file or directory").

(** The operator has no identity configured. *)
Definition noIdentity (input : list string) : World :=
  make input [item] false false (ok "") (ok entries) (ok readme) (ok tt) (ok tt).

End Scenario.

(** ** The specification's wording, to compare the code with *)

Module Spec.

(** The tokens of a text: its maximal runs of characters that are not
    whitespace. *)
Fixpoint wordsOf (s : string) : list string :=
  match s with
  | EmptyString => []
  | String c r =>
      if Char.isWhiteSpace c then wordsOf r
      else
        match r with
        | EmptyString => [String c EmptyString]
        | String d _ =>
            if Char.isWhiteSpace d then String c EmptyString :: wordsOf r
            else
              match wordsOf r with
              | word :: words => String c word :: words
              | [] => [String c EmptyString]
              end
        end
  end.

(** "Trims the input, splits on runs of whitespace, lowercases each token,
    rejoins with [-]." *)
Definition deriveProjectId (rawName : string) : string :=
  Str.join "-" (map Str.toLowerCase (wordsOf (Str.trim rawName))).

(** The keyword table: token and resolved value. *)
Definition keywordTable (projectSetup : ProjectSetup.t) (today : Date) (token : string)
  : option string :=
  if token =? "webstart-project-id" then Some (ProjectSetup.id projectSetup)
  else if token =? "webstart-project-name" then Some (ProjectSetup.name projectSetup)
  else if token =? "webstart-project-author" then
    Some (ProjectSetup.userName projectSetup ++ " <" ++ ProjectSetup.userEmail projectSetup ++ ">")
  else if token =? "webstart-project-setupdate" then
    Some (toLocaleDateString_enUS today ++ " (en-US)")
  else if token =? "webstart-template-url" then
    Some (Template.htmlUrl (ProjectSetup.template projectSetup))
  else if token =? "@webstart" then Some ("@" ++ ProjectSetup.id projectSetup)
  else None.

(** Every occurrence of each keyword, in listed order, replaced by its
    resolved value taken literally; unknown keywords are no-ops. *)
Definition substitute (projectSetup : ProjectSetup.t) (today : Date)
    (keys : list string) (text : string) : string :=
  fold_left
    (fun text key =>
       match keywordTable projectSetup today key with
       | Some value => Str.substituteAll text key value
       | None => text
       end)
    keys text.

End Spec.

(** The two ends of a text, as a split sees them. *)
Definition startsWithWhiteSpace (s : string) : bool :=
  match s with
  | EmptyString => false
  | String c _ => Char.isWhiteSpace c
  end.

Fixpoint endsWithWhiteSpace (s : string) : bool :=
  match s with
  | EmptyString => true
  | String c EmptyString => Char.isWhiteSpace c
  | String _ r => endsWithWhiteSpace r
  end.

(** The empty piece a split puts in front of the words of a text that starts
    with whitespace, and the one it puts behind a text that ends with it. *)
Definition lead (inRun : bool) (s : string) : list string :=
  if negb inRun && startsWithWhiteSpace s then [EmptyString] else [].

Definition trail (s : string) : list string :=
  if endsWithWhiteSpace s then [EmptyString] else [].

(** A token of a project id: no whitespace and no capital in it. *)
Definition lowercaseToken (t : string) : Prop :=
  Str.noWhiteSpace t = true /\ Str.noUpperCase t = true.

(** No dollar sign: the text means itself as a replacement. *)
Definition noDollar (s : string) : bool :=
  Str.all (fun c => negb (Ascii.eqb c "$")) s.

(** ** What the parts of a run amount to

    The outcome and the events of the loops and fan-outs of the program, as
    functions of the world; the run lemmas below prove that the program makes
    exactly these. *)

Section Amounts.

Variable w : World.

(** The lines [printAvailableTemplates] prints for the templates from [i] on. *)
Fixpoint templateLines (i : nat) (templates : list Template.t) : list Event :=
  match templates with
  | [] => []
  | template :: more =>
      ELog (blue ("[" ++ Num.toString (N.of_nat i) ++ "] " ++ Template.name template ++ " "))
      :: ELog ("    " ++ Template.description template ++ String Char.LF "")
      :: templateLines (S i) more
  end.

(** The text [filterFile] writes for an entry whose file holds [fileData]. *)
Definition filteredText (projectSetup : ProjectSetup.t) (entry : ManifestEntry)
    (fileData : string) : string :=
  filterText w projectSetup (keywords entry) fileData.

(** How the promise of [filterFile] settles for an entry. *)
Definition entryOutcome (dir : string) (projectSetup : ProjectSetup.t)
    (entry : ManifestEntry) : Settled unit :=
  let filepath := path_resolve w dir (file entry) in
  match readFile w filepath with
  | Fulfilled fileData => writeFile w filepath (filteredText projectSetup entry fileData)
  | Rejected error => Rejected error
  end.

(** What [filterFile] does for an entry: it reads the file and, if that
    worked, writes the filtered text back. *)
Definition entryEvents (dir : string) (projectSetup : ProjectSetup.t)
    (entry : ManifestEntry) : list Event :=
  let filepath := path_resolve w dir (file entry) in
  EReadFile filepath ::
  match readFile w filepath with
  | Fulfilled fileData => [EWriteFile filepath (filteredText projectSetup entry fileData)]
  | Rejected _ => []
  end.

(** The three removals of [removeTemplateFiles]. *)
Definition cleanupEvents (dir : string) : list Event :=
  [ EUnlink (path_resolve w dir "__template.json");
    EUnlink (path_resolve w dir "LICENSE");
    ERm (path_resolve w dir ".git") ].

Definition cleanupOutcomes (dir : string) : list (Settled unit) :=
  [ unlink w (path_resolve w dir "__template.json");
    unlink w (path_resolve w dir "LICENSE");
    rm w (path_resolve w dir ".git") ].

(** The local identity lookup fails: the command for the name does, or the
    one for the email that runs after it. *)
Definition lookupFails : bool :=
  match exec w "git config user.name" with
  | Rejected _ => true
  | Fulfilled _ =>
      match exec w "git config user.email" with
      | Rejected _ => true
      | Fulfilled _ => false
      end
  end.

(** The user [getCurrentUserInfo] finds. *)
Definition userInfo : UserInfo :=
  match exec w "git config user.name", exec w "git config user.email" with
  | Fulfilled name, Fulfilled email =>
      {| gitName := Str.replace name (String Char.LF "") "";
         gitEmail := Str.replace email (String Char.LF "") "" |}
  | _, _ => fallbackUserInfo
  end.

(** The commands [getCurrentUserInfo] runs, and the error it prints. *)
Definition userInfoEvents : list Event :=
  EExec "git config user.name" ::
  match exec w "git config user.name" with
  | Rejected error => [EError (message error)]
  | Fulfilled _ =>
      EExec "git config user.email" ::
      match exec w "git config user.email" with
      | Rejected error => [EError (message error)]
      | Fulfilled _ => []
      end
  end.

(** The directory of the new project, the command that clones the template
    into it and the manifest inside it. *)
Definition targetOf (projectSetup : ProjectSetup.t) : string :=
  getProjectTargetDirectory w projectSetup.

Definition cloneOf (projectSetup : ProjectSetup.t) : string :=
  cloneCommand (targetOf projectSetup) (Template.gitUrl (ProjectSetup.template projectSetup)).

Definition manifestOf (projectSetup : ProjectSetup.t) : string :=
  path_resolve w (targetOf projectSetup) "__template.json".

(** What the wizard prints before its first question. *)
Definition catalogLines (templates : list Template.t) : list Event :=
  ELog availableMessage :: templateLines 0 templates.

(** The setup the wizard hands to [createProject] for a chosen template, the
    answer to the name question and the user found. *)
Definition wizardSetup (template : Template.t) (nameAnswer : string) (info : UserInfo)
  : ProjectSetup.t :=
  ProjectSetup.make template (convertStringToProjectId (Str.trim nameAnswer))
    (Str.trim nameAnswer) (gitName info) (gitEmail info).

(** The answer to the index question names no template of the list. *)
Definition invalidIndex (answer : string) (templates : list Template.t) : bool :=
  match Num.parseInt answer with
  | Some i => ((i <? 0) || (Z.of_nat (List.length templates) <=? i))%Z
  | None => true
  end.

(** The template an answer selects. *)
Definition selected (answer : string) (templates : list Template.t) : Template.t :=
  nth (Z.to_nat (match Num.parseInt answer with Some i => i | None => 0%Z end))
    templates (Template.make "" "" "" "").

End Amounts.

(** Where a run stands in the materialization: the phase an event belongs
    to, if any. *)
Inductive Phase := DirectoryCheck | Fetch | Parse | Substitute | Cleanup.

Definition phaseRank (p : Phase) : nat :=
  match p with
  | DirectoryCheck => 0
  | Fetch => 1
  | Parse => 2
  | Substitute => 3
  | Cleanup => 4
  end.

Definition phaseOf (e : Event) : option Phase :=
  match e with
  | EExistsSync _ => Some DirectoryCheck
  | EExec command => if prefix "git clone" command then Some Fetch else None
  | EReadFileSync _ => Some Parse
  | EReadFile _ | EWriteFile _ _ => Some Substitute
  | EUnlink _ | ERm _ => Some Cleanup
  | _ => None
  end.

(** The ranks of the phases of a trace, in the order of the trace. *)
Fixpoint phases (t : list Event) : list nat :=
  match t with
  | [] => []
  | e :: t' =>
      match phaseOf e with
      | Some p => phaseRank p :: phases t'
      | None => phases t'
      end
  end.

(** The phases come in order: no rank is followed by a smaller one. *)
Fixpoint ascending (ranks : list nat) : bool :=
  match ranks with
  | [] => true
  | a :: more =>
      match more with
      | [] => true
      | b :: _ => (a <=? b)%nat && ascending more
      end
  end.

Definition isQuestion (e : Event) : bool :=
  match e with EQuestion _ => true | _ => false end.

Definition isSubstitution (e : Event) : bool :=
  match e with EReadFile _ | EWriteFile _ _ => true | _ => false end.

Definition isParse (e : Event) : bool :=
  match e with EReadFileSync _ => true | _ => false end.

(** A [git clone] was started. *)
Definition isClone (e : Event) : bool :=
  match e with EExec command => prefix "git clone" command | _ => false end.

(** The success report of cli.js, 128, was printed. *)
Definition completed (t : list Event) : Prop := In (ELog successMessage) t.

(** The run stopped on a question the console never answered. *)
Definition closedAtPrompt (r : Run unit) : Prop :=
  rest r = [] /\ exists t query, events r = (t ++ [EQuestion query])%list.

(** ** How far the wizard gets *)

(** The catalog holds [templates], not none, and the operator answers the
    index question with [answer]; [more] is what the console has after it. *)
Definition asksIndex (w : World) (templates : list Template.t) (answer : string)
    (more : list string) : Prop :=
  exists items,
    fetchItems w searchUrl = Fulfilled items
    /\ items <> []
    /\ templates = templatesOf items
    /\ stdin w = answer :: more.

(** The index was valid and the operator answers the name question. *)
Definition asksName (w : World) (templates : list Template.t) (answer nameAnswer : string)
    (more : list string) : Prop :=
  asksIndex w templates answer (nameAnswer :: more)
  /\ invalidIndex answer templates = false.

(** The name was not empty and the operator confirms the summary: the wizard
    calls [createProject] with [projectSetup]. *)
Definition creates (w : World) (projectSetup : ProjectSetup.t) (more : list string) : Prop :=
  exists templates answer nameAnswer confirm,
    asksName w templates answer nameAnswer (confirm :: more)
    /\ Str.trim nameAnswer <> EmptyString
    /\ projectSetup = wizardSetup (selected answer templates) nameAnswer (userInfo w).

(** ** Further notions about texts and traces *)

(** [key] occurs in [s]: it is a prefix of [s] from some position on. *)
Fixpoint occurs (key s : string) : bool :=
  prefix key s ||
  match s with
  | EmptyString => false
  | String _ r => occurs key r
  end.

Definition noLineFeed (s : string) : bool :=
  Str.all (fun c => negb (Ascii.eqb c Char.LF)) s.

(** The event is a call of an [fs] function, or a shell command other than
    the two [git config] lookups of [getCurrentUserInfo]. *)
Definition touchesSystem (e : Event) : bool :=
  match e with
  | EExistsSync _ | EReadFileSync _ | EReadFile _ | EWriteFile _ _
  | EUnlink _ | ERm _ => true
  | EExec command =>
      negb (command =? "git config user.name") && negb (command =? "git config user.email")
  | _ => false
  end.

(** ** A console that ends at any moment

    [rl_question] lets a question find the console at its end.  The input
    can end at any other moment too, and the handler of cli.js, 16-18, then
    ends the process with status 0 whatever it was doing.  [ending] says
    when that handler runs: [Some n], once the program has made [n] events,
    if it has not ended by itself before; [None], not before a question
    finds no line left. *)
Definition endsEarly (w : World) (ending : option nat) : bool :=
  match ending with
  | Some n => (n <? List.length (trace w))%nat
  | None => false
  end.

Definition cliUntil (w : World) (ending : option nat) : Run unit :=
  match ending with
  | Some n =>
      if (n <? List.length (trace w))%nat
      then mkRun (Exited 0%Z) [] (firstn n (trace w))
      else cli w
  | None => cli w
  end.

Definition exitCodeUntil (w : World) (ending : option nat) : option Z :=
  match outcome (cliUntil w ending) with
  | Exited code => Some code
  | _ => None
  end.

(** The console input ended during the run: before the program was through,
    or on a question. *)
Definition consoleEnded (w : World) (ending : option nat) : Prop :=
  endsEarly w ending = true \/ closedAtPrompt (cli w).

(** The questions of a trace, in its order. *)
Definition questions (t : list Event) : list Event := filter isQuestion t.

(** A world where the operator can name the project by an absolute path:
    [path.join] puts it under the current directory all the same, and that
    directory, /home/ada/srv, exists while /srv does not. *)
Module Absolute.

Definition world (input : list string) : World := {|
  stdin := input;
  fetchItems := fetchItems (Scenario.world input);
  exec := exec (Scenario.world input);
  existsSync := fun path => path =? "/home/ada/srv";
  readManifest := readManifest (Scenario.world input);
  readFile := readFile (Scenario.world input);
  writeFile := writeFile (Scenario.world input);
  unlink := unlink (Scenario.world input);
  rm := rm (Scenario.world input);
  now := now (Scenario.world input);
  cwd := cwd (Scenario.world input);
  path_join := fun a b => if prefix "/" b then a ++ b else a ++ "/" ++ b;
  path_resolve := path_resolve (Scenario.world input)
|}.

End Absolute.

(** A world whose network is down: the catalog cannot be fetched. *)
Module Offline.

Definition world (input : list string) : World := {|
  stdin := input;
  fetchItems := fun _ => Scenario.failed "fetch failed";
  exec := exec (Scenario.world input);
  existsSync := existsSync (Scenario.world input);
  readManifest := readManifest (Scenario.world input);
  readFile := readFile (Scenario.world input);
  writeFile := writeFile (Scenario.world input);
  unlink := unlink (Scenario.world input);
  rm := rm (Scenario.world input);
  now := now (Scenario.world input);
  cwd := cwd (Scenario.world input);
  path_join := path_join (Scenario.world input);
  path_resolve := path_resolve (Scenario.world input)
|}.

End Offline.

(** * Properties *)

(** ** The library functions on examples *)

Example split_ws_pieces :
  Str.split_ws " a  b " = [""; "a"; "b"; ""]
  /\ Str.split_ws "a" = ["a"]
  /\ Str.split_ws "" = [""]
  /\ Str.split_ws "  " = [""; ""].
Proof. repeat split. Qed.

Example replaceAll_patterns :
  Str.replaceAll "aaa" "aa" "b" = "ba"
  /\ Str.replaceAll "x-y-z" "-" "+" = "x+y+z"
  /\ Str.replaceAll "x-y" "-" "$$" = "x$y"
  /\ Str.replaceAll "x-y" "-" "[$&]" = "x[-]y"
  /\ Str.replaceAll "x-y" "-" "$1" = "x$1y"
  /\ Str.replace "a-b-c" "-" "" = "ab-c".
Proof. repeat split. Qed.

Example parseInt_answers :
  Num.parseInt " 12ab" = Some 12%Z
  /\ Num.parseInt "-0x1F" = Some (-31)%Z
  /\ Num.parseInt "1.5" = Some 1%Z
  /\ Num.parseInt "" = None
  /\ Num.parseInt "abc" = None.
Proof. repeat split. Qed.

(** A run where everything works: the operator picks template 0, names the
    project "Foo" and confirms on 2024-01-05. *)
Example cli_creates_foo :
  let w := Scenario.world ["0"; "Foo"; ""] in
  exitCode w = Some 0%Z
  /\ In (EWriteFile "/home/ada/foo/README.md"
           ("# foo" ++ String Char.LF "Created 1/5/2024 (en-US)"))
        (trace w)
  /\ In (ELog successMessage) (trace w).
Proof. vm_compute. tauto. Qed.

(** ** Characters and strings *)

Section CharFacts.

Ltac by_cases c := destruct c as [[] [] [] [] [] [] [] []]; reflexivity.

Lemma toLowerCase_isWhiteSpace (c : ascii) :
  Char.isWhiteSpace (Char.toLowerCase c) = Char.isWhiteSpace c.
Proof. by_cases c. Qed.

Lemma toLowerCase_not_upper (c : ascii) :
  Char.isUpperCase (Char.toLowerCase c) = false.
Proof. by_cases c. Qed.

End CharFacts.

Lemma toLowerCase_fixed (c : ascii) :
  Char.isUpperCase c = false -> Char.toLowerCase c = c.
Proof. unfold Char.toLowerCase. intros ->. reflexivity. Qed.

Module StrFacts.
Import Str.

Lemma all_app p (a b : string) : all p (a ++ b) = all p a && all p b.
Proof.
  induction a as [|c a IH]; simpl; [reflexivity|].
  rewrite IH. apply andb_assoc.
Qed.

Lemma toLowerCase_app (a b : string) :
  toLowerCase (a ++ b) = toLowerCase a ++ toLowerCase b.
Proof. induction a as [|c a IH]; simpl; congruence. Qed.

Lemma toLowerCase_noUpperCase (s : string) : noUpperCase (toLowerCase s) = true.
Proof.
  induction s as [|c s IH]; [reflexivity|].
  unfold noUpperCase in *. cbn [toLowerCase all].
  rewrite toLowerCase_not_upper. exact IH.
Qed.

Lemma toLowerCase_noWhiteSpace (s : string) :
  noWhiteSpace (toLowerCase s) = noWhiteSpace s.
Proof.
  induction s as [|c s IH]; [reflexivity|].
  unfold noWhiteSpace in *. cbn [toLowerCase all].
  rewrite toLowerCase_isWhiteSpace. now rewrite IH.
Qed.

Lemma toLowerCase_id (s : string) : noUpperCase s = true -> toLowerCase s = s.
Proof.
  induction s as [|c s IH]; [reflexivity|].
  unfold noUpperCase in *. cbn [toLowerCase all].
  intros H. apply andb_prop in H as [Hc Hs].
  apply negb_true_iff in Hc.
  rewrite (toLowerCase_fixed _ Hc), (IH Hs). reflexivity.
Qed.

Lemma trimStart_id (s : string) : noWhiteSpace s = true -> trimStart s = s.
Proof.
  destruct s as [|c s]; [reflexivity|].
  unfold noWhiteSpace. cbn [trimStart all].
  intros H. apply andb_prop in H as [Hc _].
  apply negb_true_iff in Hc. now rewrite Hc.
Qed.

Lemma trimEnd_id (s : string) : noWhiteSpace s = true -> trimEnd s = s.
Proof.
  induction s as [|c s IH]; [reflexivity|].
  unfold noWhiteSpace in *. cbn [trimEnd all].
  intros H. apply andb_prop in H as [Hc Hs].
  apply negb_true_iff in Hc. rewrite (IH Hs), Hc.
  destruct s; reflexivity.
Qed.

Lemma trim_id (s : string) : noWhiteSpace s = true -> trim s = s.
Proof.
  intros H. unfold trim. rewrite (trimStart_id _ H). now apply trimEnd_id.
Qed.

Lemma split_id (s : string) (inRun : bool) :
  noWhiteSpace s = true -> splitWhiteSpace inRun s = [s].
Proof.
  revert inRun. induction s as [|c s IH]; intros inRun; [reflexivity|].
  unfold noWhiteSpace in *. cbn [splitWhiteSpace all].
  intros H. apply andb_prop in H as [Hc Hs].
  apply negb_true_iff in Hc. rewrite Hc, (IH false Hs). reflexivity.
Qed.

(** Every piece of a split is free of whitespace. *)
Lemma split_pieces (s : string) (inRun : bool) :
  Forall (fun piece => noWhiteSpace piece = true) (splitWhiteSpace inRun s).
Proof.
  revert inRun. unfold noWhiteSpace.
  induction s as [|c s IH]; intros inRun; cbn [splitWhiteSpace].
  - repeat constructor.
  - destruct (Char.isWhiteSpace c) eqn:Hc.
    + destruct inRun; [apply IH|]. constructor; [reflexivity|apply IH].
    + specialize (IH false).
      destruct (splitWhiteSpace false s) as [|piece pieces].
      * constructor; [|constructor]. cbn [all]. now rewrite Hc.
      * inversion IH; subst. constructor; [|assumption].
        cbn [all]. rewrite Hc. assumption.
Qed.

Lemma join_all p (sep : string) (l : list string) :
  all p sep = true ->
  Forall (fun x => all p x = true) l ->
  all p (join sep l) = true.
Proof.
  intros Hsep. induction 1 as [|x l Hx Hl IH]; [reflexivity|].
  destruct l as [|y l]; [exact Hx|].
  change (join sep (x :: y :: l)) with (x ++ sep ++ join sep (y :: l)).
  rewrite !all_app, Hx, Hsep, IH. reflexivity.
Qed.

End StrFacts.

(** ** The pieces of a split and the words of a text *)

Module SplitFacts.
Import Str.

Lemma wordsOf_cons (c : ascii) (r : string) :
  Char.isWhiteSpace c = false ->
  exists word words, Spec.wordsOf (String c r) = word :: words.
Proof.
  intros Hc. cbn [Spec.wordsOf]. rewrite Hc.
  destruct r as [|d r]; [eauto|].
  destruct (Char.isWhiteSpace d); [eauto|].
  destruct (Spec.wordsOf (String d r)); eauto.
Qed.

Lemma endsWithWhiteSpace_cons (c d : ascii) (r : string) :
  endsWithWhiteSpace (String c (String d r)) = endsWithWhiteSpace (String d r).
Proof. reflexivity. Qed.

Lemma trail_white (c : ascii) (r : string) :
  Char.isWhiteSpace c = true -> trail (String c r) = trail r.
Proof.
  intros Hc. unfold trail. destruct r as [|d r]; [|reflexivity].
  cbn. now rewrite Hc.
Qed.

(** A split is the words of the text, with an empty piece in front when the
    text starts with whitespace and one behind when it ends with it. *)
Lemma split_words (s : string) :
  forall inRun, splitWhiteSpace inRun s = (lead inRun s ++ Spec.wordsOf s ++ trail s)%list.
Proof.
  induction s as [|c r IH]; intros inRun.
  - destruct inRun; reflexivity.
  - cbn [splitWhiteSpace]. destruct (Char.isWhiteSpace c) eqn:Hc.
    + rewrite (IH true), (trail_white _ _ Hc).
      unfold lead. cbn [startsWithWhiteSpace Spec.wordsOf negb andb].
      rewrite Hc. destruct inRun; reflexivity.
    + rewrite (IH false).
      unfold lead at 2. cbn [startsWithWhiteSpace]. rewrite Hc, andb_false_r.
      destruct r as [|d r].
      * cbn. rewrite Hc. unfold trail. cbn. rewrite Hc. reflexivity.
      * unfold lead. cbn [startsWithWhiteSpace negb andb].
        unfold trail. rewrite endsWithWhiteSpace_cons.
        destruct (Char.isWhiteSpace d) eqn:Hd.
        -- cbn [Spec.wordsOf app]. rewrite Hc, Hd. reflexivity.
        -- destruct (wordsOf_cons d r Hd) as (word & words & Hw).
           cbn [app]. rewrite Hw.
           change (Spec.wordsOf (String c (String d r)))
             with (if Char.isWhiteSpace c then Spec.wordsOf (String d r)
                   else if Char.isWhiteSpace d
                        then String c EmptyString :: Spec.wordsOf (String d r)
                        else match Spec.wordsOf (String d r) with
                             | word :: words => String c word :: words
                             | [] => [String c EmptyString]
                             end).
           rewrite Hc, Hd, Hw. reflexivity.
Qed.

Lemma trimStart_start (s : string) : startsWithWhiteSpace (trimStart s) = false.
Proof.
  induction s as [|c r IH]; [reflexivity|].
  cbn [trimStart]. destruct (Char.isWhiteSpace c) eqn:Hc; [exact IH|].
  cbn. exact Hc.
Qed.

Lemma trimEnd_start (s : string) :
  startsWithWhiteSpace s = false -> startsWithWhiteSpace (trimEnd s) = false.
Proof.
  destruct s as [|c r]; [reflexivity|].
  cbn [startsWithWhiteSpace trimEnd]. intros Hc. rewrite Hc.
  destruct (trimEnd r); cbn; [exact Hc|exact Hc].
Qed.

Lemma trimEnd_end (s : string) :
  trimEnd s = EmptyString \/ endsWithWhiteSpace (trimEnd s) = false.
Proof.
  induction s as [|c r IH]; [now left|].
  cbn [trimEnd]. destruct (trimEnd r) as [|d r'] eqn:Hr.
  - destruct (Char.isWhiteSpace c) eqn:Hc; [now left|right]. cbn. exact Hc.
  - right. destruct IH as [IH|IH]; [discriminate IH|].
    rewrite endsWithWhiteSpace_cons. exact IH.
Qed.

(** A trimmed text that is not empty has a word at each end. *)
Lemma trim_ends (s : string) :
  trim s <> EmptyString ->
  startsWithWhiteSpace (trim s) = false /\ endsWithWhiteSpace (trim s) = false.
Proof.
  intros Hne. split.
  - apply trimEnd_start, trimStart_start.
  - destruct (trimEnd_end (trimStart s)) as [H|H]; [contradiction|exact H].
Qed.

Lemma split_trim (s : string) :
  trim s <> EmptyString -> split_ws (trim s) = Spec.wordsOf (trim s).
Proof.
  intros Hne. destruct (trim_ends s Hne) as [Hs He].
  unfold split_ws. rewrite split_words. unfold lead, trail.
  rewrite Hs, He. cbn. apply app_nil_r.
Qed.

Lemma wordsOf_not_empty (s : string) :
  Forall (fun word => word <> EmptyString) (Spec.wordsOf s).
Proof.
  induction s as [|c r IH]; [constructor|].
  cbn [Spec.wordsOf]. destruct (Char.isWhiteSpace c); [exact IH|].
  destruct r as [|d r]; [repeat constructor; discriminate|].
  destruct (Char.isWhiteSpace d).
  - constructor; [discriminate|exact IH].
  - destruct (Spec.wordsOf (String d r)) as [|word words].
    + repeat constructor; discriminate.
    + inversion IH; subst. constructor; [discriminate|assumption].
Qed.

Lemma wordsOf_trim_cons (s : string) :
  trim s <> EmptyString -> Spec.wordsOf (trim s) <> [].
Proof.
  intros Hne. destruct (trim_ends s Hne) as [Hs _].
  destruct (trim s) as [|c r]; [contradiction|].
  destruct (wordsOf_cons c r Hs) as (word & words & ->). discriminate.
Qed.

End SplitFacts.

(** ** ProjectIdentity: [convertStringToProjectId] *)

Section ProjectIdentity.
Import Str StrFacts SplitFacts.

Lemma projectId_tokens (rawName : string) :
  Forall lowercaseToken (map toLowerCase (split_ws (trim rawName))).
Proof.
  apply Forall_map.
  eapply Forall_impl; [|apply split_pieces].
  intros piece Hp. split.
  - now rewrite toLowerCase_noWhiteSpace.
  - apply toLowerCase_noUpperCase.
Qed.

Lemma projectId_noWhiteSpace (rawName : string) :
  noWhiteSpace (convertStringToProjectId rawName) = true.
Proof.
  apply join_all; [reflexivity|].
  eapply Forall_impl; [|apply projectId_tokens]. now intros t [Ht _].
Qed.

Lemma projectId_noUpperCase (rawName : string) :
  noUpperCase (convertStringToProjectId rawName) = true.
Proof.
  apply join_all; [reflexivity|].
  eapply Forall_impl; [|apply projectId_tokens]. now intros t [_ Ht].
Qed.

Lemma projectId_is_derived (rawName : string) :
  trim rawName <> EmptyString ->
  convertStringToProjectId rawName = Spec.deriveProjectId rawName.
Proof.
  intros Hne. unfold convertStringToProjectId, Spec.deriveProjectId.
  now rewrite (split_trim _ Hne).
Qed.

(** C2: for every raw name whose trimmed form is not empty the id is the
    trimmed name split on runs of whitespace, each token lowercased, the
    tokens rejoined with a hyphen; the raw name "  My Cool App  " gives
    "my-cool-app". *)
Theorem convertStringToProjectId_derives :
  (forall rawName : string,
      trim rawName <> EmptyString ->
      convertStringToProjectId rawName = Spec.deriveProjectId rawName
      /\ split_ws (trim rawName) = Spec.wordsOf (trim rawName))
  /\ convertStringToProjectId "  My Cool App  " = "my-cool-app".
Proof.
  split; [|reflexivity].
  intros rawName Hne. split.
  - now apply projectId_is_derived.
  - now apply split_trim.
Qed.

Lemma convertStringToProjectId_derives_witness :
  trim " Hello  World " <> EmptyString
  /\ convertStringToProjectId " Hello  World " = Spec.deriveProjectId " Hello  World ".
Proof.
  split; [discriminate|].
  apply (proj1 convertStringToProjectId_derives " Hello  World "). discriminate.
Defined.

Lemma wordsOf_pieces (s : string) :
  Forall (fun word => noWhiteSpace word = true) (Spec.wordsOf s).
Proof.
  pose proof (split_pieces s true) as H. rewrite split_words in H.
  apply Forall_app in H as [_ H]. now apply Forall_app in H as [H _].
Qed.

(** The id is the words of the trimmed name, lowercased and joined, whatever
    the name: a blank name has no word and the empty id. *)
Lemma projectId_of_words (rawName : string) :
  convertStringToProjectId rawName
  = join "-" (map toLowerCase (Spec.wordsOf (trim rawName))).
Proof.
  destruct (string_dec (trim rawName) EmptyString) as [He|Hne].
  - unfold convertStringToProjectId. rewrite He. reflexivity.
  - now apply projectId_is_derived.
Qed.

Lemma length_app (a b : string) :
  String.length (a ++ b) = String.length a + String.length b.
Proof. induction a as [|c a IH]; cbn; [reflexivity|now rewrite IH]. Qed.

(** Joining puts one separator between two neighbours and nothing else. *)
Lemma join_length (sep : string) (l : list string) :
  String.length (join sep l)
  = list_sum (map String.length l) + String.length sep * (List.length l - 1).
Proof.
  induction l as [|x l IH]; [cbn; lia|].
  destruct l as [|y l]; [cbn; lia|].
  change (join sep (x :: y :: l)) with (x ++ sep ++ join sep (y :: l)).
  rewrite !length_app, IH. cbn [map list_sum List.length].
  replace (S (S (List.length l)) - 1) with (S (List.length l)) by lia.
  replace (S (List.length l) - 1) with (List.length l) by lia.
  rewrite Nat.mul_succ_r. unfold list_sum. cbn [fold_right]. lia.
Qed.

(** C3: the id is a function of the raw name alone.  Its tokens are the
    words of the trimmed name, lowercased: none is empty, none holds
    whitespace or a capital, and there is one when the trimmed name is not
    empty.  The id is these tokens with a single hyphen between two
    neighbours and nothing else (its length is theirs plus one for each
    joint), so it has no whitespace at its ends or inside. *)
Theorem convertStringToProjectId_shape (rawName : string) :
  let tokens := map toLowerCase (Spec.wordsOf (trim rawName)) in
  (forall again : string,
      again = rawName -> convertStringToProjectId again = convertStringToProjectId rawName)
  /\ convertStringToProjectId rawName = join "-" tokens
  /\ Forall (fun t => t <> EmptyString /\ lowercaseToken t) tokens
  /\ (trim rawName <> EmptyString -> tokens <> [])
  /\ String.length (convertStringToProjectId rawName)
     = list_sum (map String.length tokens) + (List.length tokens - 1)
  /\ noWhiteSpace (convertStringToProjectId rawName) = true
  /\ noUpperCase (convertStringToProjectId rawName) = true.
Proof.
  intros tokens. split; [now intros again ->|].
  split; [apply projectId_of_words|].
  split; [|split; [|split]].
  - subst tokens. apply Forall_map.
    pose proof (wordsOf_not_empty (trim rawName)) as Hn.
    pose proof (wordsOf_pieces (trim rawName)) as Hp.
    induction Hn as [|word words Hw Hn IH]; [constructor|].
    inversion Hp; subst. constructor; [|now apply IH].
    split; [destruct word; [contradiction|discriminate]|]. split.
    + now rewrite toLowerCase_noWhiteSpace.
    + apply toLowerCase_noUpperCase.
  - intros Hne Hnil. apply map_eq_nil in Hnil.
    now apply (wordsOf_trim_cons rawName).
  - rewrite projectId_of_words, join_length. fold tokens. cbn [String.length]. lia.
  - split; [apply projectId_noWhiteSpace|apply projectId_noUpperCase].
Qed.

Lemma convertStringToProjectId_shape_witness :
  trim "  My Cool App  " <> EmptyString
  /\ map toLowerCase (Spec.wordsOf (trim "  My Cool App  ")) <> [].
Proof.
  split; [discriminate|].
  apply (proj1 (proj2 (proj2 (proj2 (convertStringToProjectId_shape "  My Cool App  "))))).
  discriminate.
Defined.

(** C9: deriving the id of an id gives the id back, for every input. *)
Theorem convertStringToProjectId_idempotent (x : string) :
  convertStringToProjectId (convertStringToProjectId x) = convertStringToProjectId x.
Proof.
  pose proof (projectId_noWhiteSpace x) as Hw.
  pose proof (projectId_noUpperCase x) as Hu.
  set (y := convertStringToProjectId x) in *.
  unfold convertStringToProjectId at 1.
  rewrite (trim_id _ Hw). unfold split_ws. rewrite (split_id _ false Hw).
  cbn [map join]. now apply toLowerCase_id.
Qed.

End ProjectIdentity.

(** ** TemplateMaterializer: the keyword substitution of [filterFile] *)

Module ReplaceFacts.
Import Str.

Lemma GetSubstitution_literal (matched before after value : string) :
  noDollar value = true -> GetSubstitution matched before after value = value.
Proof.
  unfold noDollar. induction value as [|c r IH]; [reflexivity|].
  cbn [all]. intros H. apply andb_prop in H as [Hc Hr].
  apply negb_true_iff in Hc.
  cbn [GetSubstitution]. rewrite Hc. now rewrite (IH Hr).
Qed.

Lemma replaceScan_literal (key value : string) :
  noDollar value = true ->
  forall (s before : string) (skip : nat) (found : bool),
    replaceScan true key value before skip found s = substituteScan key value skip s.
Proof.
  intros Hv. induction s as [|c r IH]; intros before skip found; [reflexivity|].
  cbn [replaceScan substituteScan]. destruct skip as [|k]; [|apply IH].
  cbn [orb andb]. destruct (prefix key (String c r)).
  - now rewrite (GetSubstitution_literal _ _ _ _ Hv), IH.
  - now rewrite IH.
Qed.

Lemma replaceAll_literal (s key value : string) :
  key <> EmptyString -> noDollar value = true ->
  replaceAll s key value = substituteAll s key value.
Proof.
  intros Hk Hv. unfold replaceAll, substituteAll.
  destruct key; [contradiction|]. now apply replaceScan_literal.
Qed.

End ReplaceFacts.

Section Substitution.

Variable w : World.
Variable projectSetup : ProjectSetup.t.

(** The [switch] of [filterFile] is the keyword table: a keyword of the
    table is replaced by its value with [replaceAll], any other is a no-op. *)
Lemma filterKeyword_table (text key : string) :
  filterKeyword w projectSetup text key =
  match Spec.keywordTable projectSetup (now w) key with
  | Some value => Str.replaceAll text key value
  | None => text
  end.
Proof.
  unfold filterKeyword, Spec.keywordTable.
  repeat match goal with
         | |- context [if ?b then _ else _] => destruct b; [reflexivity|]
         end.
  reflexivity.
Qed.

Lemma keywordTable_key (today : Date) (key value : string) :
  Spec.keywordTable projectSetup today key = Some value -> key <> EmptyString.
Proof. intros H ->. discriminate H. Qed.

(** Where no resolved value holds a dollar sign, [filterFile] replaces every
    occurrence of each keyword by its value, in listed order. *)
Lemma filterText_literal (keys : list string) :
  (forall key value,
      In key keys ->
      Spec.keywordTable projectSetup (now w) key = Some value ->
      noDollar value = true) ->
  forall text : string,
    filterText w projectSetup keys text = Spec.substitute projectSetup (now w) keys text.
Proof.
  unfold filterText, Spec.substitute.
  induction keys as [|key keys IH]; intros Hv text; [reflexivity|].
  cbn [fold_left]. rewrite filterKeyword_table.
  destruct (Spec.keywordTable projectSetup (now w) key) as [value|] eqn:Hk.
  - rewrite ReplaceFacts.replaceAll_literal.
    + apply IH. intros k v Hin. apply Hv. now right.
    + now apply (keywordTable_key (now w) key value).
    + apply (Hv key value); [now left|exact Hk].
  - apply IH. intros k v Hin. apply Hv. now right.
Qed.

End Substitution.

(** The scenario of the specification: the README of a project [foo] set up
    on 2024-01-05. *)
Lemma filterText_readme :
  let w := Scenario.world [] in
  let projectSetup :=
    ProjectSetup.make (Template.make "web" "" "" "") "foo" "Foo" "Ada" "ada@example.org" in
  filterText w projectSetup ["webstart-project-id"; "webstart-project-setupdate"]
    Scenario.readme
  = "# foo" ++ String Char.LF "Created 1/5/2024 (en-US)".
Proof. reflexivity. Qed.

(** C1, where the code departs from it: a dollar sign in a resolved value is
    read by [replaceAll] as a replacement pattern.  The operator names the
    project "Cash $$"; the id is "cash-$$", and the README gets "cash-$". *)
Theorem filterFile_reads_dollar_patterns :
  let w := Scenario.world ["0"; "Cash $$"; ""] in
  let projectSetup :=
    ProjectSetup.make (Template.make "web" "" "" "") "cash-$$" "Cash $$" "Ada" "ada@example.org" in
  convertStringToProjectId "Cash $$" = "cash-$$"
  /\ filterText w projectSetup ["webstart-project-id"] "# webstart-project-id" = "# cash-$"
  /\ Spec.substitute projectSetup (now w) ["webstart-project-id"] "# webstart-project-id"
     = "# cash-$$"
  /\ In (EWriteFile "/home/ada/cash-$$/README.md"
           ("# cash-$" ++ String Char.LF "Created 1/5/2024 (en-US)"))
        (trace w).
Proof.
  repeat split; try reflexivity.
  vm_compute. tauto.
Qed.

(** ** Runs of the parts of the program *)

(** Unfolding the combinators of the effect model. *)
Ltac run :=
  cbv beta iota zeta delta
    [bind after ret emit throw process_exit tryCatch async asyncOf await
     console_log console_error console_clear onClose rl_question rl_close when
     Promise_allSettled lengthOf elementAt].

(** Event lists, associated to the right. *)
Ltac tidy :=
  repeat first [rewrite <- app_assoc | rewrite app_nil_r | progress cbn [app]].

Ltac run_setup :=
  run;
  cbv beta iota zeta delta
    [emptyProjectSetup ProjectSetup.template ProjectSetup.id ProjectSetup.name
     ProjectSetup.userName ProjectSetup.userEmail ProjectSetup.set_template
     ProjectSetup.set_id ProjectSetup.set_name ProjectSetup.set_userName
     ProjectSetup.set_userEmail].

Section Runs.

Variable w : World.

Lemma printTemplatesFrom_run (templates : list Template.t) :
  forall (i : nat) (input : list string),
    printTemplatesFrom i templates input = mkRun (Done tt) input (templateLines i templates).
Proof.
  induction templates as [|template more IH]; intros i input; [reflexivity|].
  cbn [printTemplatesFrom templateLines]. run. now rewrite IH.
Qed.

Lemma filterFile_run (entry : ManifestEntry) (dir : string) (projectSetup : ProjectSetup.t)
    (input : list string) :
  filterFile w entry dir projectSetup input
  = mkRun (Done (entryOutcome w dir projectSetup entry)) input
      (entryEvents w dir projectSetup entry).
Proof.
  unfold filterFile, fs_promises_readFile, fs_promises_writeFile, entryOutcome, entryEvents,
    filteredText.
  run. destruct (readFile w (path_resolve w dir (file entry))); reflexivity.
Qed.

Lemma mapM_filterFile_run (dir : string) (projectSetup : ProjectSetup.t)
    (entries : list ManifestEntry) (input : list string) :
  mapM (fun entry => filterFile w entry dir projectSetup) entries input
  = mkRun (Done (map (entryOutcome w dir projectSetup) entries)) input
      (flat_map (entryEvents w dir projectSetup) entries).
Proof.
  induction entries as [|entry entries IH]; [reflexivity|].
  cbn [mapM map flat_map]. unfold bind at 1. rewrite filterFile_run.
  unfold after, bind. rewrite IH. cbv beta iota delta [after ret]. now rewrite app_nil_r.
Qed.

Lemma filterFiles_run (dir : string) (projectSetup : ProjectSetup.t) (input : list string) :
  filterFiles w dir projectSetup input
  = mkRun
      (Done match readManifest w (path_resolve w dir "__template.json") with
            | Fulfilled entries => Fulfilled (map (entryOutcome w dir projectSetup) entries)
            | Rejected error => Rejected error
            end)
      input
      (EReadFileSync (path_resolve w dir "__template.json")
       :: match readManifest w (path_resolve w dir "__template.json") with
          | Fulfilled entries => flat_map (entryEvents w dir projectSetup) entries
          | Rejected _ => []
          end).
Proof.
  unfold filterFiles, readProjectManifest, asyncOf, async. unfold bind at 1 2 3.
  cbv beta iota zeta delta [emit after].
  destruct (readManifest w (path_resolve w dir "__template.json")) as [entries|error].
  - unfold bind, ret. rewrite mapM_filterFile_run.
    cbv beta iota delta [after Promise_allSettled]. now rewrite !app_nil_r.
  - reflexivity.
Qed.

Lemma removeTemplateFiles_run (dir : string) (input : list string) :
  removeTemplateFiles w dir input
  = mkRun (Done (Fulfilled (cleanupOutcomes w dir))) input (cleanupEvents w dir).
Proof. reflexivity. Qed.

Lemma downloadProjectTemplateData_run (dir url : string) (input : list string) :
  downloadProjectTemplateData w dir url input
  = mkRun (Done (exec w (cloneCommand dir url))) input [EExec (cloneCommand dir url)].
Proof. reflexivity. Qed.

Lemma getCurrentUserInfo_run (input : list string) :
  getCurrentUserInfo w input = mkRun (Done (Fulfilled (userInfo w))) input (userInfoEvents w).
Proof.
  unfold getCurrentUserInfo, executeShell, userInfo, userInfoEvents. run.
  destruct (exec w "git config user.name") as [name|error]; [|reflexivity].
  destruct (exec w "git config user.email") as [email|error]; reflexivity.
Qed.

Section Create.

Variable projectSetup : ProjectSetup.t.
Variable input : list string.


Ltac create :=
  unfold createProject, createSteps, checkAvailabilityOfDirectory; run;
  repeat match goal with
         | H : ?x = _ |- context [?x] => rewrite H; run
         end.

Lemma createProject_conflict :
  existsSync w (ProjectSetup.id projectSetup) = true ->
  createProject w projectSetup input
  = mkRun (Exited 9) input
      [ EExistsSync (ProjectSetup.id projectSetup);
        EError (message (directoryConflict (ProjectSetup.id projectSetup))) ].
Proof. intros Hd. create. tidy. reflexivity. Qed.

Lemma createProject_clone_failed (error : Error) :
  existsSync w (ProjectSetup.id projectSetup) = false ->
  exec w (cloneOf w projectSetup) = Rejected error ->
  createProject w projectSetup input
  = mkRun (Exited 9) input
      [ EExistsSync (ProjectSetup.id projectSetup);
        ELog "Downloading template...";
        EExec (cloneOf w projectSetup);
        EError (message error) ].
Proof.
  intros Hd Hc. unfold cloneOf, targetOf in *. create.
  rewrite downloadProjectTemplateData_run, Hc. run. tidy. reflexivity.
Qed.

Lemma createProject_manifest_failed (stdout : string) (error : Error) :
  existsSync w (ProjectSetup.id projectSetup) = false ->
  exec w (cloneOf w projectSetup) = Fulfilled stdout ->
  readManifest w (manifestOf w projectSetup) = Rejected error ->
  createProject w projectSetup input
  = mkRun (Exited 9) input
      [ EExistsSync (ProjectSetup.id projectSetup);
        ELog "Downloading template...";
        EExec (cloneOf w projectSetup);
        ELog "Filtering...";
        EReadFileSync (manifestOf w projectSetup);
        EError (message error) ].
Proof.
  intros Hd Hc Hm. unfold manifestOf, cloneOf, targetOf in *. create.
  rewrite downloadProjectTemplateData_run, Hc. run.
  rewrite filterFiles_run, Hm. run. tidy. reflexivity.
Qed.

Lemma createProject_done (stdout : string) (entries : list ManifestEntry) :
  existsSync w (ProjectSetup.id projectSetup) = false ->
  exec w (cloneOf w projectSetup) = Fulfilled stdout ->
  readManifest w (manifestOf w projectSetup) = Fulfilled entries ->
  createProject w projectSetup input
  = mkRun (Done (Fulfilled tt)) input
      ([ EExistsSync (ProjectSetup.id projectSetup);
         ELog "Downloading template...";
         EExec (cloneOf w projectSetup);
         ELog "Filtering...";
         EReadFileSync (manifestOf w projectSetup) ]
       ++ flat_map (entryEvents w (targetOf w projectSetup) projectSetup) entries
       ++ [ELog "Cleanup..."] ++ cleanupEvents w (targetOf w projectSetup) ++ [ELog successMessage])%list.
Proof.
  intros Hd Hc Hm. unfold manifestOf, cloneOf, targetOf in *. create.
  rewrite downloadProjectTemplateData_run, Hc. run.
  rewrite filterFiles_run, Hm. run.
  rewrite removeTemplateFiles_run. run. tidy. reflexivity.
Qed.

End Create.

(** *** The wizard, stage by stage *)

Lemma length_nonzero (s : string) : s <> EmptyString -> Nat.eqb (String.length s) 0 = false.
Proof. destruct s; [contradiction|reflexivity]. Qed.

Lemma invalidTemplateIndex_run (answer : string) (templates : list Template.t)
    (input : list string) :
  invalidTemplateIndex (Num.parseInt answer) (Some templates) input
  = mkRun (Done (invalidIndex answer templates)) input [].
Proof.
  unfold invalidTemplateIndex, invalidIndex.
  destruct (Num.parseInt answer) as [i|]; [|reflexivity].
  destruct (i <? 0)%Z; reflexivity.
Qed.

Lemma userInterface_undefined (input : list string) :
  userInterface w None input
  = mkRun (Done (Rejected (TypeError_undefined "length"))) input [ELog availableMessage].
Proof. reflexivity. Qed.

Section Wizard.

Variable templates : list Template.t.

Ltac wizard :=
  unfold userInterface, printAvailableTemplates; run_setup;
  rewrite printTemplatesFrom_run; run_setup;
  rewrite ?invalidTemplateIndex_run; run_setup;
  repeat match goal with
         | H : ?x = _ |- context [?x] => rewrite H; run_setup
         end.

Lemma userInterface_closed_at_index :
  userInterface w (Some templates) []
  = mkRun (Exited 0) [] (catalogLines templates ++ [EQuestion indexQuestion])%list.
Proof. wizard. tidy. reflexivity. Qed.

Lemma userInterface_invalid_index (answer : string) (more : list string) :
  invalidIndex answer templates = true ->
  userInterface w (Some templates) (answer :: more)
  = mkRun (Exited 9) more
      (catalogLines templates ++ [EQuestion indexQuestion; EError invalidIndexMessage])%list.
Proof. intros Hi. wizard. tidy. reflexivity. Qed.

Lemma userInterface_closed_at_name (answer : string) :
  invalidIndex answer templates = false ->
  userInterface w (Some templates) [answer]
  = mkRun (Exited 0) []
      (catalogLines templates ++ [EQuestion indexQuestion; EQuestion nameQuestion])%list.
Proof. intros Hi. wizard. tidy. reflexivity. Qed.

Lemma userInterface_empty_name (answer nameAnswer : string) (more : list string) :
  invalidIndex answer templates = false ->
  Str.trim nameAnswer = EmptyString ->
  userInterface w (Some templates) (answer :: nameAnswer :: more)
  = mkRun (Exited 9) more
      (catalogLines templates
       ++ [EQuestion indexQuestion; EQuestion nameQuestion; EError emptyNameMessage])%list.
Proof. intros Hi Hn. wizard. tidy. reflexivity. Qed.

Lemma userInterface_closed_at_summary (answer nameAnswer : string) :
  invalidIndex answer templates = false ->
  Str.trim nameAnswer <> EmptyString ->
  userInterface w (Some templates) [answer; nameAnswer]
  = mkRun (Exited 0) []
      (catalogLines templates
       ++ [EQuestion indexQuestion; EQuestion nameQuestion]
       ++ userInfoEvents w
       ++ [EClear;
           EQuestion (getSummaryString w
                        (wizardSetup (selected answer templates) nameAnswer (userInfo w)))])%list.
Proof.
  intros Hi Hn. apply length_nonzero in Hn. wizard.
  rewrite getCurrentUserInfo_run. run_setup.
  tidy. reflexivity.
Qed.

(** With three answers the wizard reaches [createProject]; it ends as the
    creation does, and with status 0 when the creation returns. *)
Lemma userInterface_creates (answer nameAnswer confirm : string) (more : list string)
    (code : Z) (created : list Event) :
  invalidIndex answer templates = false ->
  Str.trim nameAnswer <> EmptyString ->
  let projectSetup := wizardSetup (selected answer templates) nameAnswer (userInfo w) in
  (createProject w projectSetup more = mkRun (Exited code) more created
   \/ (createProject w projectSetup more = mkRun (Done (Fulfilled tt)) more created
       /\ code = 0%Z)) ->
  userInterface w (Some templates) (answer :: nameAnswer :: confirm :: more)
  = mkRun (Exited code) more
      (catalogLines templates
       ++ [EQuestion indexQuestion; EQuestion nameQuestion]
       ++ userInfoEvents w
       ++ [EClear; EQuestion (getSummaryString w projectSetup); EClear]
       ++ created)%list.
Proof.
  intros Hi Hn projectSetup Hc. apply length_nonzero in Hn.
  unfold wizardSetup, selected in *. wizard.
  rewrite getCurrentUserInfo_run. run_setup.
  destruct Hc as [Hc|[Hc ->]]; fold projectSetup; rewrite Hc; run;
    tidy; reflexivity.
Qed.

End Wizard.

End Runs.

(** *** The whole run *)

Section WholeRun.

Variable w : World.

Ltac script :=
  unfold cli, script, main, userInterfaceLoadTemplates, fetchAvailableTemplates; run;
  repeat match goal with
         | H : ?x = _ |- context [?x] => rewrite H; run
         end.

Lemma cli_fetch_failed (error : Error) :
  fetchItems w searchUrl = Rejected error ->
  cli w = mkRun (Exited 1) (stdin w) [ELog fetchingMessage; EFetch searchUrl].
Proof. intros Hf. script. reflexivity. Qed.

Lemma cli_empty_catalog :
  fetchItems w searchUrl = Fulfilled [] ->
  cli w = mkRun (Exited 1) (stdin w)
            [ ELog fetchingMessage; EFetch searchUrl; ELog noTemplatesMessage;
              ELog availableMessage ].
Proof. intros Hf. script. reflexivity. Qed.

Lemma cli_catalog (items : list RepoItem.t) (code : Z) (left : list string)
    (shown : list Event) :
  fetchItems w searchUrl = Fulfilled items ->
  items <> [] ->
  userInterface w (Some (templatesOf items)) (stdin w) = mkRun (Exited code) left shown ->
  cli w = mkRun (Exited code) left
            (ELog fetchingMessage :: EFetch searchUrl :: EClear :: shown).
Proof.
  intros Hf Hne Hu. destruct items as [|item items]; [contradiction|].
  script. cbn [templatesOf map List.length Nat.eqb]. run.
  change (Template.make (RepoItem.name item) (RepoItem.description item)
            (RepoItem.html_url item) (RepoItem.clone_url item)
          :: map (fun item =>
                    Template.make (RepoItem.name item) (RepoItem.description item)
                      (RepoItem.html_url item) (RepoItem.clone_url item)) items)
    with (templatesOf (item :: items)).
  rewrite Hu. reflexivity.
Qed.

(** How a run that asks the index question ends. *)
Lemma cli_asks (templates : list Template.t) (answer : string) (more left : list string)
    (code : Z) (shown : list Event) :
  asksIndex w templates answer more ->
  userInterface w (Some templates) (answer :: more) = mkRun (Exited code) left shown ->
  cli w = mkRun (Exited code) left
            (ELog fetchingMessage :: EFetch searchUrl :: EClear :: shown).
Proof.
  intros (items & Hf & Hne & -> & Hin) Hu.
  apply (cli_catalog items); [assumption..|]. now rewrite Hin.
Qed.

Lemma templateLines_no_clone (templates : list Template.t) :
  forall i, existsb isClone (templateLines i templates) = false.
Proof. induction templates as [|t l IH]; intros i; [reflexivity|apply IH]. Qed.

Lemma catalogLines_no_clone (templates : list Template.t) :
  existsb isClone (catalogLines templates) = false.
Proof. apply (templateLines_no_clone templates 0). Qed.

Lemma userInfoEvents_no_clone : existsb isClone (userInfoEvents w) = false.
Proof.
  unfold userInfoEvents.
  destruct (exec w "git config user.name"); [|reflexivity].
  destruct (exec w "git config user.email"); reflexivity.
Qed.

(** How a run that reaches [createProject] ends. *)
Lemma cli_creates (projectSetup : ProjectSetup.t) (more : list string) (code : Z)
    (created : list Event) :
  creates w projectSetup more ->
  (createProject w projectSetup more = mkRun (Exited code) more created
   \/ (createProject w projectSetup more = mkRun (Done (Fulfilled tt)) more created
       /\ code = 0%Z)) ->
  exists before,
    cli w = mkRun (Exited code) more (before ++ EClear :: created)%list
    /\ existsb isClone before = false
    /\ In (EQuestion (getSummaryString w projectSetup)) before.
Proof.
  intros (templates & answer & nameAnswer & confirm & [Ha Hi] & Hn & ->) Hc.
  exists (ELog fetchingMessage :: EFetch searchUrl :: EClear
          :: catalogLines templates
          ++ [EQuestion indexQuestion; EQuestion nameQuestion]
          ++ userInfoEvents w
          ++ [EClear;
              EQuestion (getSummaryString w
                           (wizardSetup (selected answer templates) nameAnswer
                              (userInfo w)))])%list.
  split; [|split].
  - rewrite (cli_asks _ _ _ _ _ _ Ha
               (userInterface_creates w templates answer nameAnswer confirm more
                  code created Hi Hn Hc)).
    f_equal. cbn [app]. do 3 f_equal. tidy. reflexivity.
  - change (ELog fetchingMessage :: EFetch searchUrl :: EClear :: ?l)%list
      with ([ELog fetchingMessage; EFetch searchUrl; EClear] ++ l)%list.
    rewrite !existsb_app, catalogLines_no_clone, userInfoEvents_no_clone. reflexivity.
  - do 3 right. apply in_or_app. right. apply in_or_app. right.
    apply in_or_app. right. right. now left.
Qed.

End WholeRun.

(** ** How [createProject] ends *)

Section Creation.

Variable w : World.
Variable projectSetup : ProjectSetup.t.
Variable input : list string.

Lemma completed_done (entries : list ManifestEntry) (before : list Event) :
  completed (before
             ++ flat_map (entryEvents w (targetOf w projectSetup) projectSetup) entries
             ++ [ELog "Cleanup..."] ++ cleanupEvents w (targetOf w projectSetup)
             ++ [ELog successMessage])%list.
Proof.
  unfold completed. rewrite !app_assoc. apply in_or_app. right. now left.
Qed.

(** Every way [createProject] ends: it either reports success and returns,
    or it has printed an error and left with status 9. *)
Lemma createProject_ends :
  exists (code : Z) (created : list Event),
    ((createProject w projectSetup input = mkRun (Exited code) input created
      /\ code = 9%Z /\ ~ completed created)
     \/ (createProject w projectSetup input = mkRun (Done (Fulfilled tt)) input created
         /\ code = 0%Z /\ completed created))
    /\ In (EExistsSync (ProjectSetup.id projectSetup)) created.
Proof.
  destruct (existsSync w (ProjectSetup.id projectSetup)) eqn:Hd.
  { eexists _, _. split; [left; split; [now apply createProject_conflict|]|now left].
    split; [reflexivity|]. unfold completed. cbn. intuition discriminate. }
  destruct (exec w (cloneOf w projectSetup)) as [stdout|error] eqn:Hc.
  2:{ eexists _, _. split; [left; split; [now apply (createProject_clone_failed _ _ _ error)|]
                           |now left].
      split; [reflexivity|]. unfold completed. cbn. intuition discriminate. }
  destruct (readManifest w (manifestOf w projectSetup)) as [entries|error] eqn:Hm.
  2:{ eexists _, _.
      split; [left; split; [now apply (createProject_manifest_failed _ _ _ stdout error)|]
             |now left].
      split; [reflexivity|]. unfold completed. cbn. intuition discriminate. }
  eexists _, _.
  split; [right; split; [now apply (createProject_done _ _ _ stdout entries)|]|now left].
  split; [reflexivity|]. apply completed_done.
Qed.

End Creation.

(** ** TemplateCatalog: the empty catalog *)

(** C4: with an empty catalog the program prints the no-templates message
    and asks no question.  The claim has it exit with status 0 there; the
    code goes on into the wizard with no list of templates, which throws,
    and the process ends with status 1. *)
Theorem empty_catalog_run (w : World) :
  fetchItems w searchUrl = Fulfilled [] ->
  trace w = [ ELog fetchingMessage; EFetch searchUrl; ELog noTemplatesMessage;
              ELog availableMessage ]
  /\ existsb isQuestion (trace w) = false
  /\ exitCode w = Some 1%Z.
Proof.
  intros Hf. unfold trace, exitCode. rewrite (cli_empty_catalog w Hf).
  repeat split.
Qed.

Lemma empty_catalog_run_witness :
  exitCode (Scenario.emptyCatalog ["0"; "Foo"; ""]) = Some 1%Z.
Proof.
  apply (empty_catalog_run (Scenario.emptyCatalog ["0"; "Foo"; ""])). reflexivity.
Defined.

(** ** AuthorResolver: [getCurrentUserInfo] *)

Lemma userInfo_fallback (w : World) : lookupFails w = true -> userInfo w = fallbackUserInfo.
Proof.
  unfold lookupFails, userInfo.
  destruct (exec w "git config user.name"); [|reflexivity].
  destruct (exec w "git config user.email"); [discriminate|reflexivity].
Qed.

(** C7: [getCurrentUserInfo] always returns a user, never an error; when the
    lookup fails it is the fallback, name "Unknown" and empty email, and the
    wizard goes on with it: it shows the summary and starts the creation. *)
Theorem getCurrentUserInfo_recovers (w : World) :
  (forall input : list string,
      exists info : UserInfo,
        getCurrentUserInfo w input = mkRun (Done (Fulfilled info)) input (userInfoEvents w)
        /\ (lookupFails w = true -> info = {| gitName := "Unknown"; gitEmail := "" |}))
  /\ (forall (projectSetup : ProjectSetup.t) (more : list string),
        lookupFails w = true ->
        creates w projectSetup more ->
        ProjectSetup.userName projectSetup = "Unknown"
        /\ ProjectSetup.userEmail projectSetup = ""
        /\ In (EQuestion (getSummaryString w projectSetup)) (trace w)
        /\ In (EExistsSync (ProjectSetup.id projectSetup)) (trace w)).
Proof.
  split.
  - intros input. exists (userInfo w). split; [apply getCurrentUserInfo_run|].
    apply userInfo_fallback.
  - intros projectSetup more Hl Hc.
    assert (Hu : ProjectSetup.userName projectSetup = "Unknown"
                 /\ ProjectSetup.userEmail projectSetup = "").
    { destruct Hc as (templates & answer & nameAnswer & confirm & _ & _ & ->).
      unfold wizardSetup. rewrite (userInfo_fallback w Hl). split; reflexivity. }
    destruct Hu as [Hn He]. split; [exact Hn|]. split; [exact He|].
    destruct (createProject_ends w projectSetup more) as (code & created & Hrun & Hin).
    assert (Hrun' : createProject w projectSetup more = mkRun (Exited code) more created
                    \/ (createProject w projectSetup more
                        = mkRun (Done (Fulfilled tt)) more created /\ code = 0%Z))
      by (destruct Hrun as [(H & _ & _)|(H & H0 & _)]; [left|right]; auto).
    destruct (cli_creates w projectSetup more code created Hc Hrun')
      as (before & Hcli & _ & Hq).
    unfold trace. rewrite Hcli. cbn [events]. split.
    + apply in_or_app. now left.
    + apply in_or_app. right. now right.
Qed.

Lemma getCurrentUserInfo_recovers_witness :
  ProjectSetup.userName
    (wizardSetup (selected "0" (templatesOf [Scenario.item])) "Foo"
       (userInfo (Scenario.noIdentity ["0"; "Foo"; ""]))) = "Unknown".
Proof.
  apply (proj2 (getCurrentUserInfo_recovers (Scenario.noIdentity ["0"; "Foo"; ""]))
           _ []).
  - reflexivity.
  - exists (templatesOf [Scenario.item]), "0", "Foo", "".
    split; [split; [|reflexivity]|split; [discriminate|reflexivity]].
    exists [Scenario.item]. repeat split. discriminate.
Defined.

(** ** TemplateMaterializer: phases and fan-outs *)

Section Phases.

Variable w : World.
Variable projectSetup : ProjectSetup.t.

Lemma phases_app (a b : list Event) : phases (a ++ b) = (phases a ++ phases b)%list.
Proof.
  induction a as [|e a IH]; [reflexivity|].
  cbn [app phases]. destruct (phaseOf e); [cbn [app]|]; now rewrite IH.
Qed.

Lemma phases_entries (dir : string) (entries : list ManifestEntry) :
  exists n, phases (flat_map (entryEvents w dir projectSetup) entries) = repeat 3 n.
Proof.
  induction entries as [|entry entries [n IH]]; [now exists 0|].
  cbn [flat_map]. rewrite phases_app, IH. unfold entryEvents.
  destruct (readFile w (path_resolve w dir (file entry))).
  - now exists (S (S n)).
  - now exists (S n).
Qed.

Lemma ascending_substitute (n : nat) :
  ascending (repeat 3 n ++ [4; 4; 4]) = true.
Proof.
  induction n as [|n IH]; [reflexivity|].
  cbn [repeat app]. cbn [repeat app] in IH.
  destruct n; [reflexivity|]. cbn [repeat app ascending] in *. exact IH.
Qed.

Lemma ascending_phases (n : nat) :
  ascending ([0; 1; 2] ++ repeat 3 n ++ [4; 4; 4]) = true.
Proof.
  pose proof (ascending_substitute n) as H.
  destruct n; [reflexivity|]. cbn [repeat app ascending] in *. exact H.
Qed.

Lemma phases_done (entries : list ManifestEntry) :
  exists n,
    phases
      ([ EExistsSync (ProjectSetup.id projectSetup);
         ELog "Downloading template...";
         EExec (cloneOf w projectSetup);
         ELog "Filtering...";
         EReadFileSync (manifestOf w projectSetup) ]
       ++ flat_map (entryEvents w (targetOf w projectSetup) projectSetup) entries
       ++ [ELog "Cleanup..."] ++ cleanupEvents w (targetOf w projectSetup)
       ++ [ELog successMessage])%list
    = ([0; 1; 2] ++ repeat 3 n ++ [4; 4; 4])%list.
Proof.
  destruct (phases_entries (targetOf w projectSetup) entries) as [n Hn].
  exists n. rewrite !phases_app, Hn. reflexivity.
Qed.

(** C6: the events of a materialization come phase after phase, directory
    check, fetch, parse, substitute, cleanup; when the clone fails nothing is
    parsed and nothing substituted; when the manifest cannot be parsed
    nothing is substituted; a run that completes went through the five
    phases. *)
Theorem materialization_phases (input : list string) :
  let t := events (createProject w projectSetup input) in
  ascending (phases t) = true
  /\ ((exists error, exec w (cloneOf w projectSetup) = Rejected error) ->
      existsb isParse t = false /\ existsb isSubstitution t = false)
  /\ ((exists error, readManifest w (manifestOf w projectSetup) = Rejected error) ->
      existsb isSubstitution t = false)
  /\ (completed t ->
      exists n, phases t = [0; 1; 2] ++ repeat 3 n ++ [4; 4; 4])%list.
Proof.
  intros t. subst t.
  destruct (existsSync w (ProjectSetup.id projectSetup)) eqn:Hd.
  { rewrite (createProject_conflict w projectSetup input Hd). cbn [events].
    repeat split; try reflexivity.
    intros H. unfold completed in H. cbn in H. intuition discriminate. }
  destruct (exec w (cloneOf w projectSetup)) as [stdout|error] eqn:Hc.
  2:{ rewrite (createProject_clone_failed w projectSetup input error Hd Hc). cbn [events].
      repeat split; try reflexivity.
      intros H. unfold completed in H. cbn in H. intuition discriminate. }
  destruct (readManifest w (manifestOf w projectSetup)) as [entries|error] eqn:Hm.
  2:{ rewrite (createProject_manifest_failed w projectSetup input stdout error Hd Hc Hm).
      cbn [events]. split; [reflexivity|]. split; [intros [e He]; discriminate He|].
      split; [reflexivity|].
      intros H. unfold completed in H. cbn in H. intuition discriminate. }
  rewrite (createProject_done w projectSetup input stdout entries Hd Hc Hm). cbn [events].
  destruct (phases_done entries) as [n Hn]. rewrite Hn.
  split; [apply (ascending_phases n)|].
  split; [intros [e He]; discriminate He|].
  split; [intros [e He]; discriminate He|].
  intros _. now exists n.
Qed.

End Phases.

Lemma materialization_phases_witness :
  existsb isParse
    (events (createProject (Scenario.cloneFails [])
               (wizardSetup Scenario.template "Foo" fallbackUserInfo) [])) = false
  /\ existsb isSubstitution
       (events (createProject (Scenario.cloneFails [])
                  (wizardSetup Scenario.template "Foo" fallbackUserInfo) [])) = false.
Proof.
  apply (materialization_phases (Scenario.cloneFails [])
           (wizardSetup Scenario.template "Foo" fallbackUserInfo) []).
  exists {| message := "Command failed: git clone" |}. reflexivity.
Defined.

Section FanOuts.

Variable w : World.
Variable projectSetup : ProjectSetup.t.



End FanOuts.


(** ** The wizard: exit status *)

Section ExitStatus.

Variable w : World.

Lemma cli_ends_creation (projectSetup : ProjectSetup.t) (more : list string) :
  creates w projectSetup more ->
  exists (code : Z) (before created : list Event),
    cli w = mkRun (Exited code) more (before ++ EClear :: created)%list
    /\ events (createProject w projectSetup more) = created
    /\ existsb isClone before = false
    /\ ((code = 9%Z /\ outcome (createProject w projectSetup more) = Exited 9
         /\ ~ completed created)
        \/ (code = 0%Z /\ outcome (createProject w projectSetup more) = Done (Fulfilled tt)
            /\ completed created)).
Proof.
  intros Hc.
  destruct (createProject_ends w projectSetup more) as (code & created & Hrun & _).
  assert (Hrun' : createProject w projectSetup more = mkRun (Exited code) more created
                  \/ (createProject w projectSetup more
                      = mkRun (Done (Fulfilled tt)) more created /\ code = 0%Z))
    by (destruct Hrun as [(H & _ & _)|(H & H0 & _)]; [left|right]; auto).
  destruct (cli_creates w projectSetup more code created Hc Hrun')
    as (before & Hcli & Hq & _).
  exists code, before, created. split; [exact Hcli|].
  destruct Hrun as [(H & -> & Hn)|(H & -> & Hy)]; rewrite H; cbn [events outcome]; auto 10.
Qed.

(** C10: when the wizard reaches the creation, the directory is free, the
    clone works and the manifest is parsed, the program reports success and
    ends with status 0, whatever reading and writing the files of the
    manifest gave. *)
Theorem substitution_failures_are_discarded (projectSetup : ProjectSetup.t)
    (more : list string) (stdout : string) (entries : list ManifestEntry) :
  creates w projectSetup more ->
  existsSync w (ProjectSetup.id projectSetup) = false ->
  exec w (cloneOf w projectSetup) = Fulfilled stdout ->
  readManifest w (manifestOf w projectSetup) = Fulfilled entries ->
  completed (trace w) /\ exitCode w = Some 0%Z.
Proof.
  intros Hc Hd He Hm.
  destruct (cli_ends_creation projectSetup more Hc)
    as (code & before & created & Hcli & Hev & _ & Hend).
  rewrite (createProject_done w projectSetup more stdout entries Hd He Hm) in Hend.
  destruct Hend as [(_ & H & _)|(-> & _ & Hy)]; [discriminate H|].
  unfold trace, exitCode. rewrite Hcli. cbn [events outcome]. split; [|reflexivity].
  unfold completed in *. apply in_or_app. right. now right.
Qed.

Lemma invalidIndex_cases (answer : string) (templates : list Template.t) :
  {invalidIndex answer templates = true} + {invalidIndex answer templates = false}.
Proof. destruct (invalidIndex answer templates); auto. Qed.

Lemma closed_at (left : list Event) (query : string) (code : Z) :
  cli w = mkRun (Exited code) [] (left ++ [EQuestion query])%list -> closedAtPrompt (cli w).
Proof. intros ->. split; [reflexivity|]. now exists left, query. Qed.

(** Every run ends with status 1, 9 or 0, and with 0 only after the success
    report or on a question left without an answer. *)
Lemma exit_status :
  exitCode w = Some 1%Z
  \/ exitCode w = Some 9%Z
  \/ (exitCode w = Some 0%Z /\ (completed (trace w) \/ closedAtPrompt (cli w))).
Proof.
  destruct (fetchItems w searchUrl) as [items|error] eqn:Hf.
  2:{ left. unfold exitCode. now rewrite (cli_fetch_failed w error Hf). }
  destruct items as [|item items].
  { left. unfold exitCode. now rewrite (cli_empty_catalog w Hf). }
  set (templates := templatesOf (item :: items)).
  destruct (stdin w) as [|answer more] eqn:Hin.
  { right. right.
    pose proof (cli_catalog w (item :: items) 0 [] _ Hf ltac:(discriminate)
                  ltac:(rewrite Hin; apply userInterface_closed_at_index)) as Hcli.
    split; [unfold exitCode; now rewrite Hcli|]. right.
    apply (closed_at (ELog fetchingMessage :: EFetch searchUrl :: EClear
                      :: catalogLines templates) indexQuestion 0).
    rewrite Hcli. reflexivity. }
  destruct (invalidIndex_cases answer templates) as [Hi|Hi].
  { right. left. unfold exitCode.
    now rewrite (cli_catalog w (item :: items) 9 more _ Hf ltac:(discriminate)
                   ltac:(rewrite Hin; now apply userInterface_invalid_index)). }
  destruct more as [|nameAnswer more].
  { right. right.
    pose proof (cli_catalog w (item :: items) 0 [] _ Hf ltac:(discriminate)
                  ltac:(rewrite Hin; now apply userInterface_closed_at_name)) as Hcli.
    split; [unfold exitCode; now rewrite Hcli|]. right.
    apply (closed_at (ELog fetchingMessage :: EFetch searchUrl :: EClear
                      :: catalogLines templates ++ [EQuestion indexQuestion])
             nameQuestion 0).
    rewrite Hcli. cbn [app]. do 4 f_equal. now rewrite <- app_assoc. }
  destruct (string_dec (Str.trim nameAnswer) EmptyString) as [Hn|Hn].
  { right. left. unfold exitCode.
    now rewrite (cli_catalog w (item :: items) 9 more _ Hf ltac:(discriminate)
                   ltac:(rewrite Hin; now apply userInterface_empty_name)). }
  destruct more as [|confirm more].
  { right. right.
    pose proof (cli_catalog w (item :: items) 0 [] _ Hf ltac:(discriminate)
                  ltac:(rewrite Hin; now apply userInterface_closed_at_summary)) as Hcli.
    split; [unfold exitCode; now rewrite Hcli|]. right.
    apply (closed_at (ELog fetchingMessage :: EFetch searchUrl :: EClear
                      :: catalogLines templates
                      ++ [EQuestion indexQuestion; EQuestion nameQuestion]
                      ++ userInfoEvents w ++ [EClear])
             (getSummaryString w
                (wizardSetup (selected answer templates) nameAnswer (userInfo w))) 0).
    rewrite Hcli. cbn [app]. do 4 f_equal. tidy. reflexivity. }
  assert (Hc : creates w (wizardSetup (selected answer templates) nameAnswer (userInfo w)) more).
  { exists templates, answer, nameAnswer, confirm.
    split; [split; [|exact Hi]|split; [exact Hn|reflexivity]].
    exists (item :: items). repeat split; [exact Hf|discriminate|exact Hin]. }
  destruct (cli_ends_creation _ more Hc) as (code & before & created & Hcli & _ & _ & Hend).
  right. unfold exitCode, trace. rewrite Hcli. cbn [outcome events].
  destruct Hend as [(-> & _ & _)|(-> & _ & Hy)]; [now left|right].
  split; [reflexivity|]. left. apply in_or_app. right. now right.
Qed.

End ExitStatus.

Section ExitCodes.

Variable w : World.

Lemma createProject_catches (projectSetup : ProjectSetup.t) (input left : list string)
    (error : Error) (made : list Event) :
  createSteps w (getProjectTargetDirectory w projectSetup) projectSetup input
  = mkRun (Thrown error) left made ->
  createProject w projectSetup input
  = mkRun (Exited 9) left (made ++ [EError (message error)])%list.
Proof. intros H. unfold createProject. run. rewrite H. reflexivity. Qed.

Lemma thrown_run {A} (r : Run A) (error : Error) :
  outcome r = Thrown error -> r = mkRun (Thrown error) (rest r) (events r).
Proof. destruct r as [o i e]. cbn. now intros ->. Qed.

(** The failures of a run whose console lasts, and the status of each. *)
Lemma failures_exit_9 :
  (forall templates answer more,
      asksIndex w templates answer more ->
      invalidIndex answer templates = true ->
      exitCode w = Some 9%Z)
  /\ (forall templates answer nameAnswer more,
        asksName w templates answer nameAnswer more ->
        Str.trim nameAnswer = EmptyString ->
        exitCode w = Some 9%Z)
  /\ (forall projectSetup more,
        creates w projectSetup more ->
        (existsSync w (ProjectSetup.id projectSetup) = true ->
         exitCode w = Some 9%Z /\ existsb isClone (trace w) = false)
        /\ (existsSync w (ProjectSetup.id projectSetup) = false ->
            (exists error, exec w (cloneOf w projectSetup) = Rejected error) ->
            exitCode w = Some 9%Z)
        /\ ((exists error,
               outcome (createSteps w (getProjectTargetDirectory w projectSetup)
                          projectSetup more) = Thrown error) ->
            exitCode w = Some 9%Z))
  /\ (exitCode w = Some 0%Z -> completed (trace w) \/ closedAtPrompt (cli w)).
Proof.
  split; [|split; [|split]].
  - intros templates answer more Ha Hi. unfold exitCode.
    now rewrite (cli_asks w _ _ _ _ _ _ Ha
                   (userInterface_invalid_index w templates answer more Hi)).
  - intros templates answer nameAnswer more [Ha Hi] Hn. unfold exitCode.
    now rewrite (cli_asks w _ _ _ _ _ _ Ha
                   (userInterface_empty_name w templates answer nameAnswer more Hi Hn)).
  - intros projectSetup more Hc.
    destruct (cli_ends_creation w projectSetup more Hc)
      as (code & before & created & Hcli & Hev & Hq & Hend).
    unfold exitCode, trace. rewrite Hcli. cbn [outcome events].
    split; [|split].
    + intros Hd. rewrite (createProject_conflict w projectSetup more Hd) in Hev, Hend.
      destruct Hend as [(-> & _ & _)|(_ & H & _)]; [|discriminate H].
      split; [reflexivity|]. rewrite existsb_app, Hq, <- Hev. reflexivity.
    + intros Hd [error He].
      rewrite (createProject_clone_failed w projectSetup more error Hd He) in Hend.
      destruct Hend as [(-> & _ & _)|(_ & H & _)]; [reflexivity|discriminate H].
    + intros [error He]. apply thrown_run in He.
      rewrite (createProject_catches _ _ _ _ _ He) in Hend.
      destruct Hend as [(-> & _ & _)|(_ & H & _)]; [reflexivity|discriminate H].
  - intros H0. destruct (exit_status w) as [H|[H|[_ H]]]; [congruence..|exact H].
Qed.

Lemma cliUntil_open (ending : option nat) :
  endsEarly w ending = false -> cliUntil w ending = cli w.
Proof.
  unfold endsEarly, cliUntil. destruct ending as [n|]; [|reflexivity]. now intros ->.
Qed.


(** C5, as the code has it.  While the console lasts: status 9 on an index
    that names no template, on an empty name, on a target directory that
    exists when the id resolves to it (the check of cli.js, 117, is on the
    id; no clone was started then), on a failed clone and on any error
    thrown by the steps of the creation.  Status 0 only after the success
    report, with an empty catalog, or when the console input ended, on a
    question or at any other moment (the close handler of cli.js, 16-18). *)
Theorem exit_codes (ending : option nat) :
  (endsEarly w ending = false ->
   (forall templates answer more,
       asksIndex w templates answer more ->
       invalidIndex answer templates = true ->
       exitCodeUntil w ending = Some 9%Z)
   /\ (forall templates answer nameAnswer more,
         asksName w templates answer nameAnswer more ->
         Str.trim nameAnswer = EmptyString ->
         exitCodeUntil w ending = Some 9%Z)
   /\ (forall projectSetup more,
         creates w projectSetup more ->
         (existsSync w (getProjectTargetDirectory w projectSetup) = true ->
          existsSync w (ProjectSetup.id projectSetup)
          = existsSync w (getProjectTargetDirectory w projectSetup) ->
          exitCodeUntil w ending = Some 9%Z
          /\ existsb isClone (events (cliUntil w ending)) = false)
         /\ ((exists error, exec w (cloneOf w projectSetup) = Rejected error) ->
             exitCodeUntil w ending = Some 9%Z)
         /\ ((exists error,
                outcome (createSteps w (getProjectTargetDirectory w projectSetup)
                           projectSetup more) = Thrown error) ->
             exitCodeUntil w ending = Some 9%Z)))
  /\ (exitCodeUntil w ending = Some 0%Z ->
      completed (events (cliUntil w ending))
      \/ fetchItems w searchUrl = Fulfilled []
      \/ consoleEnded w ending).
Proof.
  destruct failures_exit_9 as (Hindex & Hname & Hcreate & Hzero).
  split.
  - intros Hopen. unfold exitCodeUntil. rewrite (cliUntil_open ending Hopen).
    fold (exitCode w). fold (trace w).
    split; [exact Hindex|]. split; [exact Hname|].
    intros projectSetup more Hc.
    destruct (Hcreate projectSetup more Hc) as (Htaken & Hclone & Hthrown).
    split; [|split; [|exact Hthrown]].
    + intros Ht Hid. apply Htaken. now rewrite Hid.
    + intros Hr. destruct (existsSync w (ProjectSetup.id projectSetup)) eqn:Hid.
      * now apply Htaken.
      * now apply Hclone.
  - intros H0. destruct (endsEarly w ending) eqn:He.
    + right. right. now left.
    + unfold exitCodeUntil in H0. rewrite (cliUntil_open ending He) in *.
      fold (exitCode w) in H0. fold (trace w).
      destruct (Hzero H0) as [H|H]; [now left|right; right; now right].
Qed.

End ExitCodes.

Lemma exit_codes_witness :
  exitCodeUntil (Scenario.directoryTaken ["0"; "Foo"; ""]) None = Some 9%Z
  /\ existsb isClone (events (cliUntil (Scenario.directoryTaken ["0"; "Foo"; ""]) None))
     = false.
Proof.
  refine (proj1 (proj2 (proj2 (proj1 (exit_codes (Scenario.directoryTaken ["0"; "Foo"; ""])
                                        None) eq_refl))
                   (wizardSetup (selected "0" (templatesOf [Scenario.item])) "Foo"
                      (userInfo (Scenario.directoryTaken ["0"; "Foo"; ""]))) [] _) _ _).
  - exists (templatesOf [Scenario.item]), "0", "Foo", "".
    split; [split; [|reflexivity]|split; [discriminate|reflexivity]].
    exists [Scenario.item]. repeat split. discriminate.
  - reflexivity.
  - reflexivity.
Defined.

(** C5 as the claim states it fails.  The operator picks the template and
    then closes the console: the process ends with status 0, nothing was
    created and the catalog was not empty.  The console input ends while the
    catalog is fetched, in a directory where the target exists: status 0
    again, not 9.  And the operator names the project "/srv" where
    /home/ada/srv exists: the check is on the id, "/srv", which does not
    exist, so the clone into the existing target is started and the run does
    not end with status 9. *)
Lemma exit_code_claim_fails :
  (let w := Scenario.world ["0"] in
   exitCode w = Some 0%Z
   /\ ~ completed (trace w)
   /\ fetchItems w searchUrl <> Fulfilled [])
  /\ (let w := Scenario.directoryTaken ["0"; "Foo"; ""] in
      existsSync w "/home/ada/foo" = true
      /\ firstn 2 (trace w) = [ELog fetchingMessage; EFetch searchUrl]
      /\ exitCodeUntil w (Some 2) = Some 0%Z)
  /\ (let w := Absolute.world ["0"; "/srv"; ""] in
      convertStringToProjectId (Str.trim "/srv") = "/srv"
      /\ path_join w (cwd w) "/srv" = "/home/ada/srv"
      /\ existsSync w (path_join w (cwd w) "/srv") = true
      /\ existsb isClone (trace w) = true
      /\ exitCode w <> Some 9%Z).
Proof.
  split; [|split].
  - split; [reflexivity|]. split; [|discriminate].
    unfold completed. vm_compute. intuition discriminate.
  - repeat split.
  - repeat split. vm_compute. discriminate.
Qed.


Lemma substitution_failures_are_discarded_witness :
  completed (trace (Scenario.brokenFiles ["0"; "Foo"; ""]))
  /\ exitCode (Scenario.brokenFiles ["0"; "Foo"; ""]) = Some 0%Z.
Proof.
  apply (substitution_failures_are_discarded (Scenario.brokenFiles ["0"; "Foo"; ""])
           (wizardSetup (selected "0" (templatesOf [Scenario.item])) "Foo"
              (userInfo (Scenario.brokenFiles ["0"; "Foo"; ""])))
           [] "" Scenario.entries).
  - exists (templatesOf [Scenario.item]), "0", "Foo", "".
    split; [split; [|reflexivity]|split; [discriminate|reflexivity]].
    exists [Scenario.item]. repeat split. discriminate.
  - reflexivity.
  - reflexivity.
  - reflexivity.
Defined.

(** * More of the code *)

(** ** The index question: what is shown is what is selected *)

Module NumFacts.

Lemma digits_from (d : Decimal.uint) :
  forall p : positive,
    Num.digits 10 (Some (Npos p)) (NilEmpty.string_of_uint d)
    = Some (Npos (Pos.of_uint_acc d p)).
Proof.
  induction d; intros p; cbn [NilEmpty.string_of_uint Pos.of_uint_acc];
    [reflexivity|..];
    (etransitivity; [|apply IHd]);
    change (Num.digits 10 (Some (N.pos p)) (String ?c ?s))
      with (Num.digits 10 (Some (N.pos p * 10 + (Char.code c - 48))%N) s);
    do 2 f_equal;
    match goal with
    | |- context [(Char.code ?c - 48)%N] =>
        let v := eval vm_compute in (Char.code c - 48)%N in
        change (Char.code c - 48)%N with v
    end; lia.
Qed.

Lemma digits_zero (d : Decimal.uint) :
  Num.digits 10 (Some 0%N) (NilEmpty.string_of_uint d) = Some (Pos.of_uint d).
Proof.
  induction d; cbn [NilEmpty.string_of_uint Pos.of_uint];
    [reflexivity|exact IHd|..]; apply (digits_from d).
Qed.

Lemma digits_of_uint (d : Decimal.uint) :
  d <> Decimal.Nil ->
  Num.digits 10 None (NilEmpty.string_of_uint d) = Some (N.of_uint d).
Proof.
  destruct d; intros Hd; [contradiction|exact (digits_zero d)|..];
    apply (digits_from d).
Qed.

Lemma to_uint_nonnil (n : N) : N.to_uint n <> Decimal.Nil.
Proof.
  destruct n as [|p]; [discriminate|apply DecimalPos.Unsigned.to_uint_nonnil].
Qed.

Lemma parseInt_of_uint (d : Decimal.uint) :
  d <> Decimal.Nil ->
  Num.parseInt (NilEmpty.string_of_uint d) = Some (Z.of_N (N.of_uint d)).
Proof.
  intros Hd. pose proof (digits_of_uint d Hd) as H.
  destruct d; [contradiction|..];
    try (unfold Num.parseInt, Num.unprefixed, Num.signed;
         cbn [NilEmpty.string_of_uint Str.trimStart] in *; cbn;
         cbn in H; rewrite H; reflexivity).
  unfold Num.parseInt, Num.unprefixed, Num.signed.
  destruct d; cbn [NilEmpty.string_of_uint] in *; cbn; cbn in H;
    try (rewrite H; reflexivity).
  reflexivity.
Qed.

(** Reading back the decimal text of a number gives the number. *)
Lemma parseInt_toString (n : N) : Num.parseInt (Num.toString n) = Some (Z.of_N n).
Proof.
  unfold Num.toString. rewrite (parseInt_of_uint _ (to_uint_nonnil n)).
  now rewrite DecimalN.Unsigned.of_to.
Qed.

End NumFacts.

Section ShownIndex.

Variable w : World.

Lemma printAvailableTemplates_run (templates : list Template.t) (input : list string) :
  printAvailableTemplates (Some templates) input
  = mkRun (Done tt) input (catalogLines templates).
Proof.
  unfold printAvailableTemplates. run. rewrite printTemplatesFrom_run. run. tidy.
  reflexivity.
Qed.

Lemma templateLines_shows (templates : list Template.t) :
  forall (k i : nat) (template : Template.t),
    nth_error templates i = Some template ->
    In (ELog (blue ("[" ++ Num.toString (N.of_nat (k + i)) ++ "] "
                    ++ Template.name template ++ " ")))
       (templateLines k templates).
Proof.
  induction templates as [|t l IH]; intros k i template Hn.
  - destruct i; discriminate Hn.
  - destruct i as [|i].
    + injection Hn as ->. rewrite Nat.add_0_r. now left.
    + cbn [templateLines]. right. right.
      replace (k + S i) with (S k + i) by lia. now apply IH.
Qed.

Lemma shown_index_valid (templates : list Template.t) (i : nat) (template : Template.t) :
  nth_error templates i = Some template ->
  invalidIndex (Num.toString (N.of_nat i)) templates = false
  /\ selected (Num.toString (N.of_nat i)) templates = template.
Proof.
  intros Hn. unfold invalidIndex, selected. rewrite NumFacts.parseInt_toString.
  assert (Hlt : i < List.length templates) by (apply nth_error_Some; congruence).
  split.
  - apply orb_false_iff. split; [apply Z.ltb_ge|apply Z.leb_gt]; lia.
  - replace (Z.to_nat (Z.of_N (N.of_nat i))) with i by lia.
    now apply nth_error_nth.
Qed.

(** X1: the index printed beside a template selects it.  A template at
    position [i] of the list is printed with "[i]"; answering the index
    question with that number is accepted, and the summary that follows is
    the one of a project made from this very template. *)
Theorem shown_index_selects (templates : list Template.t) (i : nat)
    (template : Template.t) (nameAnswer : string) :
  nth_error templates i = Some template ->
  Str.trim nameAnswer <> EmptyString ->
  In (ELog (blue ("[" ++ Num.toString (N.of_nat i) ++ "] "
                  ++ Template.name template ++ " ")))
     (events (printAvailableTemplates (Some templates) []))
  /\ userInterface w (Some templates) [Num.toString (N.of_nat i); nameAnswer]
     = mkRun (Exited 0) []
         (events (printAvailableTemplates (Some templates) [])
          ++ [EQuestion indexQuestion; EQuestion nameQuestion]
          ++ events (getCurrentUserInfo w [])
          ++ [EClear;
              EQuestion (getSummaryString w
                           (ProjectSetup.make template
                              (convertStringToProjectId (Str.trim nameAnswer))
                              (Str.trim nameAnswer)
                              (gitName (userInfo w)) (gitEmail (userInfo w))))])%list.
Proof.
  intros Hn Hname. destruct (shown_index_valid templates i template Hn) as [Hv Hs].
  rewrite printAvailableTemplates_run, getCurrentUserInfo_run. cbn [events]. split.
  - right. apply (templateLines_shows templates 0 i template Hn).
  - rewrite (userInterface_closed_at_summary w templates _ nameAnswer Hv Hname).
    rewrite Hs. reflexivity.
Qed.

End ShownIndex.

Lemma shown_index_selects_witness :
  In (ELog (blue ("[" ++ Num.toString (N.of_nat 0) ++ "] "
                  ++ Template.name Scenario.template ++ " ")))
     (events (printAvailableTemplates (Some [Scenario.template]) [])).
Proof.
  apply (shown_index_selects (Scenario.world []) [Scenario.template] 0 Scenario.template "Foo").
  - reflexivity.
  - discriminate.
Defined.

(** ** TemplateCatalog: a failed fetch *)

(** X2: when the catalog cannot be fetched the run is over at once: the
    rejection of [main] has no handler, so the process ends with status 1
    after the fetching message, with no question asked and no line of the
    console read. *)
Theorem fetch_failure_run (w : World) (error : Error) :
  fetchItems w searchUrl = Rejected error ->
  trace w = [ELog fetchingMessage; EFetch searchUrl]
  /\ rest (cli w) = stdin w
  /\ exitCode w = Some 1%Z.
Proof.
  intros Hf. unfold trace, exitCode. rewrite (cli_fetch_failed w error Hf). repeat split.
Qed.

(** ** Fetch phase: who reports a failed clone *)


Lemma fetch_failure_run_witness :
  exitCode (Offline.world ["0"; "Foo"; ""]) = Some 1%Z.
Proof.
  apply (fetch_failure_run (Offline.world ["0"; "Foo"; ""])
           {| message := "fetch failed" |}).
  reflexivity.
Defined.


(** ** AuthorResolver: what the lookup returns *)

Module LineFacts.
Import Str.

Lemma scan_final_line_feed (s : string) :
  noLineFeed s = true ->
  forall before : string,
    replaceScan false (String Char.LF EmptyString) EmptyString before 0 false
      (s ++ String Char.LF EmptyString) = s.
Proof.
  unfold noLineFeed. induction s as [|c r IH]; intros H before; [reflexivity|].
  cbn [all] in H. apply andb_prop in H as [Hc Hr].
  apply negb_true_iff in Hc.
  change ((String c r ++ String Char.LF EmptyString)%string)
    with (String c (r ++ String Char.LF EmptyString)).
  cbn [replaceScan orb negb andb prefix].
  destruct (ascii_dec Char.LF c) as [<-|Hne].
  - discriminate Hc.
  - now rewrite (IH Hr).
Qed.

(** A text that ends with its only line feed loses it. *)
Lemma replace_final_line_feed (s : string) :
  noLineFeed s = true ->
  replace (s ++ String Char.LF EmptyString) (String Char.LF EmptyString) EmptyString = s.
Proof. intros H. now apply scan_final_line_feed. Qed.

End LineFacts.

Section UserInfo.

Variable w : World.

(** X4: the lookup is all or nothing.  When the name cannot be read the
    email is not even asked for, and when the name is read but the email is
    not, the name is dropped too: both fields are the fallback.  The error
    of the failing command is printed once. *)
Theorem getCurrentUserInfo_all_or_nothing (input : list string) :
  (forall error : Error,
      exec w "git config user.name" = Rejected error ->
      getCurrentUserInfo w input
      = mkRun (Done (Fulfilled {| gitName := "Unknown"; gitEmail := "" |})) input
          [EExec "git config user.name"; EError (message error)])
  /\ (forall (name : string) (error : Error),
        exec w "git config user.name" = Fulfilled name ->
        exec w "git config user.email" = Rejected error ->
        getCurrentUserInfo w input
        = mkRun (Done (Fulfilled {| gitName := "Unknown"; gitEmail := "" |})) input
            [ EExec "git config user.name"; EExec "git config user.email";
              EError (message error) ]).
Proof.
  split.
  - intros error Hn. rewrite getCurrentUserInfo_run. unfold userInfo, userInfoEvents.
    now rewrite Hn.
  - intros name error Hn He. rewrite getCurrentUserInfo_run. unfold userInfo, userInfoEvents.
    now rewrite Hn, He.
Qed.

(** X5: the line feed that ends the output of [git config] is removed:
    for outputs "name\n" and "email\n" with no other line feed the user is
    exactly (name, email). *)
Theorem getCurrentUserInfo_strips_line_feed (input : list string) (name email : string) :
  noLineFeed name = true ->
  noLineFeed email = true ->
  exec w "git config user.name" = Fulfilled (name ++ String Char.LF "") ->
  exec w "git config user.email" = Fulfilled (email ++ String Char.LF "") ->
  getCurrentUserInfo w input
  = mkRun (Done (Fulfilled {| gitName := name; gitEmail := email |})) input
      [EExec "git config user.name"; EExec "git config user.email"].
Proof.
  intros Hn He Hxn Hxe. rewrite getCurrentUserInfo_run. unfold userInfo, userInfoEvents.
  rewrite Hxn, Hxe.
  now rewrite (LineFacts.replace_final_line_feed _ Hn), (LineFacts.replace_final_line_feed _ He).
Qed.

End UserInfo.

Lemma getCurrentUserInfo_all_or_nothing_witness :
  getCurrentUserInfo (Scenario.noIdentity []) []
  = mkRun (Done (Fulfilled {| gitName := "Unknown"; gitEmail := "" |})) []
      [EExec "git config user.name"; EError "Command failed"].
Proof.
  apply (proj1 (getCurrentUserInfo_all_or_nothing (Scenario.noIdentity []) [])
           {| message := "Command failed" |}).
  reflexivity.
Defined.

Lemma getCurrentUserInfo_strips_line_feed_witness :
  getCurrentUserInfo (Scenario.world []) []
  = mkRun (Done (Fulfilled {| gitName := "Ada"; gitEmail := "ada@example.org" |})) []
      [EExec "git config user.name"; EExec "git config user.email"].
Proof.
  apply (getCurrentUserInfo_strips_line_feed (Scenario.world []) [] "Ada" "ada@example.org");
    reflexivity.
Defined.

(** ** Substitute phase: files without placeholders *)

Module AbsentFacts.
Import Str.

Lemma occurs_cons (key : string) (c : ascii) (r : string) :
  occurs key (String c r) = false ->
  prefix key (String c r) = false /\ occurs key r = false.
Proof. cbn [occurs]. intros H. now apply orb_false_iff in H. Qed.

Lemma replaceScan_absent (key template : string) (s : string) :
  occurs key s = false ->
  forall (before : string) (found : bool),
    replaceScan true key template before 0 found s = s.
Proof.
  induction s as [|c r IH]; intros H before found; [reflexivity|].
  apply occurs_cons in H as [Hp Hr].
  cbn [replaceScan orb andb]. rewrite Hp. now rewrite (IH Hr).
Qed.

(** Replacing a text that does not occur changes nothing, whatever the
    replacement. *)
Lemma replaceAll_absent (s key template : string) :
  occurs key s = false -> replaceAll s key template = s.
Proof.
  intros H. unfold replaceAll. destruct key as [|k key].
  - destruct s; discriminate H.
  - now apply replaceScan_absent.
Qed.

End AbsentFacts.

Section Untouched.

Variable w : World.
Variable projectSetup : ProjectSetup.t.

Lemma filterKeyword_absent (text key : string) :
  occurs key text = false -> filterKeyword w projectSetup text key = text.
Proof.
  intros H. unfold filterKeyword.
  repeat match goal with
         | |- context [if ?b then _ else _] =>
             destruct b; [now apply AbsentFacts.replaceAll_absent|]
         end.
  reflexivity.
Qed.

Lemma filterText_absent (keys : list string) (text : string) :
  (forall key, In key keys -> occurs key text = false) ->
  filterText w projectSetup keys text = text.
Proof.
  unfold filterText. induction keys as [|key keys IH]; intros H; [reflexivity|].
  cbn [fold_left]. rewrite filterKeyword_absent by (apply H; now left).
  apply IH. intros k Hk. apply H. now right.
Qed.

(** X6: a listed file whose text holds none of its keywords is written
    back with the text that was read, whatever the project's values are
    (dollar signs included).  The text is the one [toString()] makes of the
    file: of a file that is not UTF-8 text, the bytes are not kept when one
    of its keywords is among the six. *)
Theorem filterFile_keeps_text_without_keywords (entry : ManifestEntry) (dir : string)
    (input : list string) (fileData : string) :
  readFile w (path_resolve w dir (file entry)) = Fulfilled fileData ->
  (forall key, In key (keywords entry) -> occurs key fileData = false) ->
  filterFile w entry dir projectSetup input
  = mkRun (Done (writeFile w (path_resolve w dir (file entry)) fileData)) input
      [ EReadFile (path_resolve w dir (file entry));
        EWriteFile (path_resolve w dir (file entry)) fileData ].
Proof.
  intros Hr Ha. rewrite filterFile_run. unfold entryOutcome, entryEvents, filteredText.
  rewrite Hr, (filterText_absent _ _ Ha). reflexivity.
Qed.

End Untouched.

Lemma filterFile_keeps_text_without_keywords_witness :
  let w := Scenario.make [] [] true false (Fulfilled "") (Fulfilled [])
             (Fulfilled "MIT License $& $$") (Fulfilled tt) (Fulfilled tt) in
  let entry := {| file := "LICENSE.md"; keywords := ["webstart-project-id"; "@webstart"] |} in
  filterFile w entry "/home/ada/foo"
    (ProjectSetup.make Scenario.template "cash-$$" "Cash $$" "Ada" "") []
  = mkRun (Done (Fulfilled tt)) []
      [ EReadFile "/home/ada/foo/LICENSE.md";
        EWriteFile "/home/ada/foo/LICENSE.md" "MIT License $& $$" ].
Proof.
  apply (filterFile_keeps_text_without_keywords
           (Scenario.make [] [] true false (Fulfilled "") (Fulfilled [])
              (Fulfilled "MIT License $& $$") (Fulfilled tt) (Fulfilled tt))
           (ProjectSetup.make Scenario.template "cash-$$" "Cash $$" "Ada" "")
           {| file := "LICENSE.md"; keywords := ["webstart-project-id"; "@webstart"] |}
           "/home/ada/foo" [] "MIT License $& $$").
  - reflexivity.
  - intros key [<-|[<-|[]]]; reflexivity.
Defined.

(** ** ProjectIdentity: what the id does not depend on *)

Module CaseFacts.
Import Str StrFacts.





Lemma trimStart_fixed (s : string) :
  startsWithWhiteSpace s = false -> trimStart s = s.
Proof. destruct s as [|c r]; [reflexivity|]. cbn. now intros ->. Qed.

Lemma trimEnd_idem (s : string) : trimEnd (trimEnd s) = trimEnd s.
Proof.
  induction s as [|c r IH]; [reflexivity|].
  cbn [trimEnd]. destruct (trimEnd r) as [|d r'] eqn:Hr.
  - destruct (Char.isWhiteSpace c) eqn:Hc; [reflexivity|].
    cbn [trimEnd]. now rewrite Hc.
  - cbn [trimEnd]. cbn [trimEnd] in IH. rewrite IH. reflexivity.
Qed.

Lemma trim_idem (s : string) : trim (trim s) = trim s.
Proof.
  unfold trim at 1.
  rewrite (trimStart_fixed (trim s) (SplitFacts.trimEnd_start _ (SplitFacts.trimStart_start s))).
  apply trimEnd_idem.
Qed.

End CaseFacts.



(** ** The shape of every run *)

Section Shapes.

Variable w : World.

(** The four ways the events of [createProject] look. *)
Lemma createProject_events (projectSetup : ProjectSetup.t) (input : list string) :
  (existsSync w (ProjectSetup.id projectSetup) = true
   /\ events (createProject w projectSetup input)
      = [ EExistsSync (ProjectSetup.id projectSetup);
          EError (message (directoryConflict (ProjectSetup.id projectSetup))) ])
  \/ (exists error,
        existsSync w (ProjectSetup.id projectSetup) = false
        /\ exec w (cloneOf w projectSetup) = Rejected error
        /\ events (createProject w projectSetup input)
           = [ EExistsSync (ProjectSetup.id projectSetup);
               ELog "Downloading template...";
               EExec (cloneOf w projectSetup);
               EError (message error) ])
  \/ (exists error,
        existsSync w (ProjectSetup.id projectSetup) = false
        /\ readManifest w (manifestOf w projectSetup) = Rejected error
        /\ events (createProject w projectSetup input)
           = [ EExistsSync (ProjectSetup.id projectSetup);
               ELog "Downloading template...";
               EExec (cloneOf w projectSetup);
               ELog "Filtering...";
               EReadFileSync (manifestOf w projectSetup);
               EError (message error) ])
  \/ (exists entries,
        existsSync w (ProjectSetup.id projectSetup) = false
        /\ readManifest w (manifestOf w projectSetup) = Fulfilled entries
        /\ events (createProject w projectSetup input)
           = ([ EExistsSync (ProjectSetup.id projectSetup);
                ELog "Downloading template...";
                EExec (cloneOf w projectSetup);
                ELog "Filtering...";
                EReadFileSync (manifestOf w projectSetup) ]
              ++ flat_map (entryEvents w (targetOf w projectSetup) projectSetup) entries
              ++ [ELog "Cleanup..."] ++ cleanupEvents w (targetOf w projectSetup)
              ++ [ELog successMessage])%list).
Proof.
  destruct (existsSync w (ProjectSetup.id projectSetup)) eqn:Hd.
  { left. split; [reflexivity|]. now rewrite (createProject_conflict w _ input Hd). }
  destruct (exec w (cloneOf w projectSetup)) as [stdout|error] eqn:Hc.
  2:{ right. left. exists error. repeat split.
      now rewrite (createProject_clone_failed w _ input error Hd Hc). }
  destruct (readManifest w (manifestOf w projectSetup)) as [entries|error] eqn:Hm.
  2:{ right. right. left. exists error. repeat split.
      now rewrite (createProject_manifest_failed w _ input stdout error Hd Hc Hm). }
  right. right. right. exists entries. repeat split.
  now rewrite (createProject_done w _ input stdout entries Hd Hc Hm).
Qed.

Lemma entryEvents_in (dir : string) (projectSetup : ProjectSetup.t)
    (entries : list ManifestEntry) (e : Event) :
  In e (flat_map (entryEvents w dir projectSetup) entries) ->
  exists entry,
    In entry entries
    /\ (e = EReadFile (path_resolve w dir (file entry))
        \/ exists fileData,
             readFile w (path_resolve w dir (file entry)) = Fulfilled fileData
             /\ e = EWriteFile (path_resolve w dir (file entry))
                      (filterText w projectSetup (keywords entry) fileData)).
Proof.
  intros H. apply in_flat_map in H as (entry & Hin & He). exists entry.
  split; [exact Hin|]. unfold entryEvents, filteredText in He.
  destruct He as [<-|He]; [now left|].
  destruct (readFile w (path_resolve w dir (file entry))) as [fileData|error];
    [|destruct He].
  destruct He as [<-|[]]. right. now exists fileData.
Qed.

End Shapes.

Section Changes.

Variable w : World.
Variable projectSetup : ProjectSetup.t.
Variable input : list string.

Ltac absurd_in H :=
  cbn [In] in H;
  repeat match type of H with
         | _ \/ _ => destruct H as [H|H]
         | False => destruct H
         | _ = _ => discriminate H
         end.

(** What [createProject] does to the file system, read off its four shapes:
    [e] is one of its events. *)
Lemma createProject_event (e : Event) :
  In e (events (createProject w projectSetup input)) ->
  e = EExistsSync (ProjectSetup.id projectSetup)
  \/ e = EExec (cloneOf w projectSetup)
  \/ e = EReadFileSync (manifestOf w projectSetup)
  \/ (exists text, e = ELog text)
  \/ (exists text, e = EError text)
  \/ In e (cleanupEvents w (targetOf w projectSetup))
  \/ (exists entries,
        readManifest w (manifestOf w projectSetup) = Fulfilled entries
        /\ In e (flat_map (entryEvents w (targetOf w projectSetup) projectSetup) entries)).
Proof.
  intros H.
  destruct (createProject_events w projectSetup input)
    as [[_ He]|[(error & _ & _ & He)|[(error & _ & _ & He)|(entries & _ & Hm & He)]]];
    rewrite He in H; clear He.
  - cbn [In] in H. destruct H as [<-|[<-|[]]]; eauto 10.
  - cbn [In] in H. destruct H as [<-|[<-|[<-|[<-|[]]]]]; eauto 10.
  - cbn [In] in H. destruct H as [<-|[<-|[<-|[<-|[<-|[<-|[]]]]]]]; eauto 10.
  - apply in_app_or in H as [H|H].
    { cbn [In] in H. destruct H as [<-|[<-|[<-|[<-|[<-|[]]]]]]; eauto 10. }
    apply in_app_or in H as [H|H]; [do 6 right; eauto|].
    apply in_app_or in H as [H|H]; [destruct H as [<-|[]]; eauto 10|].
    apply in_app_or in H as [H|H]; [eauto 10|].
    destruct H as [<-|[]]; eauto 10.
Qed.

(** X8: [createProject] writes only files the manifest lists, each with
    the filtered text of what was read from that same file, and removes only
    the manifest, the LICENSE and the .git directory of the project. *)
Theorem createProject_changes_only :
  (forall path data : string,
      In (EWriteFile path data) (events (createProject w projectSetup input)) ->
      exists (entries : list ManifestEntry) (entry : ManifestEntry) (fileData : string),
        readManifest w
          (path_resolve w (getProjectTargetDirectory w projectSetup) "__template.json")
        = Fulfilled entries
        /\ In entry entries
        /\ path = path_resolve w (getProjectTargetDirectory w projectSetup) (file entry)
        /\ readFile w path = Fulfilled fileData
        /\ data = filterText w projectSetup (keywords entry) fileData)
  /\ (forall path : string,
        In (EUnlink path) (events (createProject w projectSetup input)) ->
        path = path_resolve w (getProjectTargetDirectory w projectSetup) "__template.json"
        \/ path = path_resolve w (getProjectTargetDirectory w projectSetup) "LICENSE")
  /\ (forall path : string,
        In (ERm path) (events (createProject w projectSetup input)) ->
        path = path_resolve w (getProjectTargetDirectory w projectSetup) ".git").
Proof.
  split; [|split]; intros path; [intros data|..]; intros H;
    apply createProject_event in H
      as [H|[H|[H|[[text H]|[[text H]|[H|(entries & Hm & H)]]]]]];
    try discriminate H.
  - unfold cleanupEvents in H. absurd_in H.
  - apply entryEvents_in in H as (entry & Hin & [H|(fileData & Hr & H)]);
      [discriminate H|].
    injection H as -> ->. exists entries, entry, fileData. auto.
  - unfold cleanupEvents in H. cbn [In] in H.
    destruct H as [H|[H|[H|[]]]]; try discriminate H; injection H as <-; auto.
  - apply entryEvents_in in H as (entry & Hin & [H|(fileData & Hr & H)]); discriminate H.
  - unfold cleanupEvents in H. cbn [In] in H.
    destruct H as [H|[H|[H|[]]]]; try discriminate H; injection H as <-; auto.
  - apply entryEvents_in in H as (entry & Hin & [H|(fileData & Hr & H)]); discriminate H.
Qed.

Lemma createProject_asks_nothing :
  questions (events (createProject w projectSetup input)) = [].
Proof.
  unfold questions.
  destruct (filter isQuestion (events (createProject w projectSetup input)))
    as [|e l] eqn:Hf; [reflexivity|].
  assert (He : In e (filter isQuestion (events (createProject w projectSetup input))))
    by (rewrite Hf; now left).
  apply filter_In in He as [He Hq].
  apply createProject_event in He
    as [H|[H|[H|[[text H]|[[text H]|[H|(entries & Hm & H)]]]]]];
    try (subst e; discriminate Hq).
  - unfold cleanupEvents in H. cbn [In] in H.
    destruct H as [H|[H|[H|[]]]]; subst e; discriminate Hq.
  - apply entryEvents_in in H as (entry & Hin & [H|(fileData & Hr & H)]);
      subst e; discriminate Hq.
Qed.

(** X9: nothing is removed unless the creation went through: a removal in
    the events of [createProject] means that it returned and reported
    success.  A creation that fails leaves the directory as the clone made
    it. *)
Theorem createProject_removes_only_when_done (path : string) :
  In (EUnlink path) (events (createProject w projectSetup input))
  \/ In (ERm path) (events (createProject w projectSetup input)) ->
  outcome (createProject w projectSetup input) = Done (Fulfilled tt)
  /\ completed (events (createProject w projectSetup input)).
Proof.
  intros H.
  destruct (existsSync w (ProjectSetup.id projectSetup)) eqn:Hd.
  { rewrite (createProject_conflict w _ input Hd) in H. cbn [events] in H.
    destruct H as [H|H]; absurd_in H. }
  destruct (exec w (cloneOf w projectSetup)) as [stdout|error] eqn:Hc.
  2:{ rewrite (createProject_clone_failed w _ input error Hd Hc) in H. cbn [events] in H.
      destruct H as [H|H]; absurd_in H. }
  destruct (readManifest w (manifestOf w projectSetup)) as [entries|error] eqn:Hm.
  2:{ rewrite (createProject_manifest_failed w _ input stdout error Hd Hc Hm) in H.
      cbn [events] in H. destruct H as [H|H]; absurd_in H. }
  rewrite (createProject_done w _ input stdout entries Hd Hc Hm). cbn [outcome events].
  split; [reflexivity|apply completed_done].
Qed.

End Changes.

Lemma createProject_removes_only_when_done_witness :
  outcome (createProject (Scenario.world [])
             (wizardSetup Scenario.template "Foo" fallbackUserInfo) [])
  = Done (Fulfilled tt)
  /\ completed (events (createProject (Scenario.world [])
                          (wizardSetup Scenario.template "Foo" fallbackUserInfo) [])).
Proof.
  apply (createProject_removes_only_when_done (Scenario.world [])
           (wizardSetup Scenario.template "Foo" fallbackUserInfo) []
           "/home/ada/foo/LICENSE").
  left. vm_compute. tauto.
Defined.

Section Parts.

Variable w : World.

Lemma templateLines_quiet (templates : list Template.t) :
  forall i,
    existsb touchesSystem (templateLines i templates) = false
    /\ questions (templateLines i templates) = [].
Proof.
  induction templates as [|t l IH]; intros i; [split; reflexivity|].
  destruct (IH (S i)) as [H1 H2]. split; [exact H1|exact H2].
Qed.

Lemma userInfoEvents_quiet :
  existsb touchesSystem (userInfoEvents w) = false /\ questions (userInfoEvents w) = [].
Proof.
  unfold userInfoEvents.
  destruct (exec w "git config user.name"); [|split; reflexivity].
  destruct (exec w "git config user.email"); split; reflexivity.
Qed.

Lemma questions_app (a b : list Event) : questions (a ++ b) = (questions a ++ questions b)%list.
Proof. apply filter_app. Qed.

(** The events before the creation: the catalog, then [middle]. *)
Lemma prelude_quiet (templates : list Template.t) (middle : list Event) :
  existsb touchesSystem middle = false ->
  existsb touchesSystem
    (ELog fetchingMessage :: EFetch searchUrl :: EClear :: catalogLines templates ++ middle)
  = false
  /\ questions
       (ELog fetchingMessage :: EFetch searchUrl :: EClear :: catalogLines templates ++ middle)
     = questions middle.
Proof.
  intros Hm. destruct (templateLines_quiet templates 0) as [H1 H2].
  change (ELog fetchingMessage :: EFetch searchUrl :: EClear :: catalogLines templates ++ middle)%list
    with ([ELog fetchingMessage; EFetch searchUrl; EClear; ELog availableMessage]
          ++ templateLines 0 templates ++ middle)%list.
  rewrite !existsb_app, !questions_app, H1, H2, Hm. split; reflexivity.
Qed.

Lemma answers_quiet (last : list Event) :
  existsb touchesSystem last = false ->
  existsb touchesSystem
    ([EQuestion indexQuestion; EQuestion nameQuestion] ++ userInfoEvents w ++ last) = false
  /\ questions ([EQuestion indexQuestion; EQuestion nameQuestion] ++ userInfoEvents w ++ last)
     = EQuestion indexQuestion :: EQuestion nameQuestion :: questions last.
Proof.
  intros Hl. destruct userInfoEvents_quiet as [H1 H2].
  rewrite !existsb_app, !questions_app, H1, H2, Hl. split; reflexivity.
Qed.

(** Every run, in two parts: what comes before the creation, which leaves
    the file system alone and asks at most the three questions in their
    order, and the events of the creation, if the wizard gets there. *)
Lemma cli_parts :
  exists (code : Z) (prelude created : list Event),
    cli w = mkRun (Exited code) (rest (cli w)) (prelude ++ created)
    /\ existsb touchesSystem prelude = false
    /\ ((code = 1%Z /\ created = [] /\ questions prelude = []
         /\ ((exists error, fetchItems w searchUrl = Rejected error)
             \/ fetchItems w searchUrl = Fulfilled []))
        \/ ((exists item items, fetchItems w searchUrl = Fulfilled (item :: items))
            /\ ((created = []
                 /\ ((code = 0%Z /\ rest (cli w) = [] /\ questions prelude = [EQuestion indexQuestion])
                     \/ (code = 9%Z /\ questions prelude = [EQuestion indexQuestion])
                     \/ (code = 0%Z /\ rest (cli w) = []
                         /\ questions prelude
                            = [EQuestion indexQuestion; EQuestion nameQuestion])
                     \/ (code = 9%Z
                         /\ questions prelude
                            = [EQuestion indexQuestion; EQuestion nameQuestion])
                     \/ (code = 0%Z /\ rest (cli w) = []
                         /\ exists projectSetup,
                              questions prelude
                              = [ EQuestion indexQuestion; EQuestion nameQuestion;
                                  EQuestion (getSummaryString w projectSetup) ])))
                \/ (exists projectSetup more,
                      creates w projectSetup more
                      /\ rest (cli w) = more
                      /\ created = events (createProject w projectSetup more)
                      /\ (code = 0%Z \/ code = 9%Z)
                      /\ questions prelude
                         = [ EQuestion indexQuestion; EQuestion nameQuestion;
                             EQuestion (getSummaryString w projectSetup) ])))).
Proof.
  destruct (fetchItems w searchUrl) as [items|error] eqn:Hf.
  2:{ exists 1%Z, [ELog fetchingMessage; EFetch searchUrl], [].
      rewrite (cli_fetch_failed w error Hf). cbn [rest app].
      split; [reflexivity|]. split; [reflexivity|]. left. eauto 10. }
  destruct items as [|item items].
  { exists 1%Z, [ELog fetchingMessage; EFetch searchUrl; ELog noTemplatesMessage;
                 ELog availableMessage], [].
    rewrite (cli_empty_catalog w Hf). cbn [rest app].
    split; [reflexivity|]. split; [reflexivity|]. left. auto 10. }
  set (templates := templatesOf (item :: items)).
  assert (Hcat : exists i l, Fulfilled (item :: items) = Fulfilled (A:=list RepoItem.t) (i :: l))
    by eauto.
  destruct (stdin w) as [|answer more] eqn:Hin.
  { pose proof (cli_catalog w (item :: items) 0 [] _ Hf ltac:(discriminate)
                  ltac:(rewrite Hin; apply userInterface_closed_at_index)) as Hcli.
    destruct (prelude_quiet templates [EQuestion indexQuestion] eq_refl) as [Ht Hq].
    eexists 0%Z, _, []. rewrite Hcli at 1. rewrite Hcli. cbn [rest].
    rewrite app_nil_r. split; [reflexivity|]. split; [exact Ht|].
    right. split; [exact Hcat|]. left. split; [reflexivity|]. left. auto. }
  destruct (invalidIndex_cases answer templates) as [Hi|Hi].
  { pose proof (cli_catalog w (item :: items) 9 more _ Hf ltac:(discriminate)
                  ltac:(rewrite Hin; now apply userInterface_invalid_index)) as Hcli.
    destruct (prelude_quiet templates
                [EQuestion indexQuestion; EError invalidIndexMessage] eq_refl) as [Ht Hq].
    eexists 9%Z, _, []. rewrite Hcli at 1. rewrite Hcli. cbn [rest].
    rewrite app_nil_r. split; [reflexivity|]. split; [exact Ht|].
    right. split; [exact Hcat|]. left. split; [reflexivity|]. right. left. auto. }
  destruct more as [|nameAnswer more].
  { pose proof (cli_catalog w (item :: items) 0 [] _ Hf ltac:(discriminate)
                  ltac:(rewrite Hin; now apply userInterface_closed_at_name)) as Hcli.
    destruct (prelude_quiet templates
                [EQuestion indexQuestion; EQuestion nameQuestion] eq_refl) as [Ht Hq].
    eexists 0%Z, _, []. rewrite Hcli at 1. rewrite Hcli. cbn [rest].
    rewrite app_nil_r. split; [reflexivity|]. split; [exact Ht|].
    right. split; [exact Hcat|]. left. split; [reflexivity|]. right. right. left. auto. }
  destruct (string_dec (Str.trim nameAnswer) EmptyString) as [Hn|Hn].
  { pose proof (cli_catalog w (item :: items) 9 more _ Hf ltac:(discriminate)
                  ltac:(rewrite Hin; now apply userInterface_empty_name)) as Hcli.
    destruct (prelude_quiet templates
                [EQuestion indexQuestion; EQuestion nameQuestion; EError emptyNameMessage]
                eq_refl) as [Ht Hq].
    eexists 9%Z, _, []. rewrite Hcli at 1. rewrite Hcli. cbn [rest].
    rewrite app_nil_r. split; [reflexivity|]. split; [exact Ht|].
    right. split; [exact Hcat|]. left. split; [reflexivity|]. do 3 right. left. auto. }
  set (projectSetup := wizardSetup (selected answer templates) nameAnswer (userInfo w)).
  destruct more as [|confirm more].
  { pose proof (cli_catalog w (item :: items) 0 [] _ Hf ltac:(discriminate)
                  ltac:(rewrite Hin; now apply userInterface_closed_at_summary)) as Hcli.
    destruct (answers_quiet [EClear; EQuestion (getSummaryString w projectSetup)] eq_refl)
      as [Ht1 Hq1].
    destruct (prelude_quiet templates _ Ht1) as [Ht Hq].
    exists 0%Z,
      (ELog fetchingMessage :: EFetch searchUrl :: EClear :: catalogLines templates
       ++ [EQuestion indexQuestion; EQuestion nameQuestion] ++ userInfoEvents w
       ++ [EClear; EQuestion (getSummaryString w projectSetup)])%list, [].
    rewrite Hcli. cbn [rest].
    rewrite app_nil_r. split; [reflexivity|]. split; [exact Ht|].
    right. split; [exact Hcat|]. left. split; [reflexivity|]. do 4 right.
    split; [reflexivity|]. split; [reflexivity|]. exists projectSetup.
    rewrite Hq, Hq1. reflexivity. }
  assert (Hc : creates w projectSetup more).
  { exists templates, answer, nameAnswer, confirm.
    split; [split; [|exact Hi]|split; [exact Hn|reflexivity]].
    exists (item :: items). repeat split; [exact Hf|discriminate|exact Hin]. }
  destruct (createProject_ends w projectSetup more) as (code & created & Hrun & _).
  assert (Hrun' : createProject w projectSetup more = mkRun (Exited code) more created
                  \/ (createProject w projectSetup more
                      = mkRun (Done (Fulfilled tt)) more created /\ code = 0%Z))
    by (destruct Hrun as [(H & _ & _)|(H & H0 & _)]; [left|right]; auto).
  pose proof (cli_catalog w (item :: items) code more _ Hf ltac:(discriminate)
                ltac:(rewrite Hin;
                      apply (userInterface_creates w templates answer nameAnswer confirm
                               more code created Hi Hn Hrun'))) as Hcli.
  destruct (answers_quiet [EClear; EQuestion (getSummaryString w projectSetup); EClear]
              eq_refl) as [Ht1 Hq1].
  destruct (prelude_quiet templates _ Ht1) as [Ht Hq].
  exists code,
    (ELog fetchingMessage :: EFetch searchUrl :: EClear :: catalogLines templates
     ++ [EQuestion indexQuestion; EQuestion nameQuestion] ++ userInfoEvents w
     ++ [EClear; EQuestion (getSummaryString w projectSetup); EClear])%list, created.
  split; [|split; [exact Ht|]].
  - rewrite Hcli. cbn [rest]. f_equal. tidy. reflexivity.
  - right. split; [exact Hcat|]. right. exists projectSetup, more.
    split; [exact Hc|]. split; [now rewrite Hcli|].
    split; [destruct Hrun as [(H & _ & _)|(H & _ & _)]; now rewrite H|].
    split; [destruct Hrun as [(_ & -> & _)|(_ & -> & _)]; auto|].
    rewrite Hq, Hq1. reflexivity.
Qed.

End Parts.

(** ** What every run keeps to *)

Section EveryRun.

Variable w : World.

Lemma existsb_firstn {A} (f : A -> bool) (n : nat) (l : list A) :
  existsb f (firstn n l) = true -> existsb f l = true.
Proof.
  rewrite <- (firstn_skipn n l) at 2. rewrite existsb_app. now intros ->.
Qed.

Lemma cliUntil_events (ending : option nat) (f : Event -> bool) :
  existsb f (events (cliUntil w ending)) = true -> existsb f (trace w) = true.
Proof.
  unfold cliUntil. destruct ending as [n|]; [|auto].
  destruct (n <? List.length (trace w))%nat; [|auto].
  cbn [events]. apply existsb_firstn.
Qed.

(** X10: before the operator has answered the three questions the program
    calls no function of [fs] and runs no shell command other than the two
    [git config] lookups, whenever the console input ends: a run that does
    either had a valid index, a name that is not empty and a confirmation. *)
Theorem nothing_touched_before_confirmation (ending : option nat) :
  existsb touchesSystem (events (cliUntil w ending)) = true ->
  exists (projectSetup : ProjectSetup.t) (more : list string)
         (answer nameAnswer confirm : string),
    creates w projectSetup more
    /\ stdin w = answer :: nameAnswer :: confirm :: more.
Proof.
  intros Ht. apply cliUntil_events in Ht.
  destruct (cli_parts w) as (code & prelude & created & Hcli & Hp & Hshape).
  unfold trace in Ht. rewrite Hcli in Ht. cbn [events] in Ht.
  rewrite existsb_app, Hp in Ht. cbn [orb] in Ht.
  destruct Hshape as [(_ & -> & _)|(_ & [(-> & _)|(ps & more & Hc & _)])];
    try discriminate Ht.
  exists ps, more.
  pose proof Hc as (templates & answer & nameAnswer & confirm & [Ha _] & _ & _).
  destruct Ha as (items & _ & _ & _ & Hin).
  exists answer, nameAnswer, confirm. auto.
Qed.

(** X11: the wizard asks at most three questions, always in the order
    index, name, summary. *)
Theorem questions_in_order :
  questions (trace w) = []
  \/ questions (trace w) = [EQuestion indexQuestion]
  \/ questions (trace w) = [EQuestion indexQuestion; EQuestion nameQuestion]
  \/ exists projectSetup : ProjectSetup.t,
       questions (trace w)
       = [ EQuestion indexQuestion; EQuestion nameQuestion;
           EQuestion (getSummaryString w projectSetup) ].
Proof.
  destruct (cli_parts w) as (code & prelude & created & Hcli & Hp & Hshape).
  unfold trace. rewrite Hcli. cbn [events]. rewrite questions_app.
  destruct Hshape
    as [(_ & -> & Hq & _)
       |(_ & [(-> & [(_ & _ & Hq)|[(_ & Hq)|[(_ & _ & Hq)|[(_ & Hq)|(_ & _ & ps & Hq)]]]])
             |(ps & more & _ & _ & -> & _ & Hq)])];
    rewrite Hq; rewrite ?createProject_asks_nothing; cbn [questions filter app]; eauto 10.
Qed.



End EveryRun.

Lemma nothing_touched_before_confirmation_witness :
  exists (projectSetup : ProjectSetup.t) (more : list string)
         (answer nameAnswer confirm : string),
    creates (Scenario.world ["0"; "Foo"; ""]) projectSetup more
    /\ stdin (Scenario.world ["0"; "Foo"; ""]) = answer :: nameAnswer :: confirm :: more.
Proof.
  apply (nothing_touched_before_confirmation (Scenario.world ["0"; "Foo"; ""]) None).
  reflexivity.
Defined.

(** ** The directory of the new project *)

Lemma join_cons_not_empty (sep x : string) (l : list string) :
  x <> EmptyString -> Str.join sep (x :: l) <> EmptyString.
Proof.
  destruct x as [|c x]; [contradiction|]. intros _.
  destruct l; discriminate.
Qed.

Lemma projectId_not_empty (rawName : string) :
  Str.trim rawName <> EmptyString -> convertStringToProjectId rawName <> EmptyString.
Proof.
  intros Hne. rewrite (projectId_is_derived _ Hne). unfold Spec.deriveProjectId.
  pose proof (SplitFacts.wordsOf_not_empty (Str.trim rawName)) as Hw.
  pose proof (SplitFacts.wordsOf_trim_cons rawName Hne) as Hc.
  destruct (Spec.wordsOf (Str.trim rawName)) as [|word words]; [contradiction|].
  inversion Hw; subst. cbn [map]. apply join_cons_not_empty.
  destruct word; [contradiction|discriminate].
Qed.

Section Directory.

Variable w : World.

(** X13: the directory whose existence is checked is always the id of the
    second line of the console: it is never empty and holds no whitespace
    and no capital. *)
Theorem checked_directory_is_the_id (path : string) :
  In (EExistsSync path) (trace w) ->
  exists nameAnswer : string,
    nth_error (stdin w) 1 = Some nameAnswer
    /\ path = convertStringToProjectId nameAnswer
    /\ path <> EmptyString
    /\ Str.noWhiteSpace path = true
    /\ Str.noUpperCase path = true.
Proof.
  intros Hin.
  destruct (cli_parts w) as (code & prelude & created & Hcli & Hp & Hshape).
  unfold trace in Hin. rewrite Hcli in Hin. cbn [events] in Hin.
  apply in_app_or in Hin as [Hin|Hin].
  { assert (Ht : existsb touchesSystem prelude = true)
      by (apply existsb_exists; exists (EExistsSync path); auto).
    congruence. }
  destruct Hshape as [(_ & -> & _)|(_ & [(-> & _)|(ps & more & Hc & _ & -> & _)])];
    try (destruct Hin).
  apply createProject_event in Hin
    as [H|[H|[H|[[text H]|[[text H]|[H|(entries & Hm & H)]]]]]];
    try discriminate H.
  - injection H as ->.
    destruct Hc as (templates & answer & nameAnswer & confirm & [Ha _] & Hn & ->).
    destruct Ha as (items & _ & _ & _ & Hs).
    exists nameAnswer. rewrite Hs. split; [reflexivity|].
    cbn [wizardSetup ProjectSetup.id].
    split; [unfold convertStringToProjectId; now rewrite CaseFacts.trim_idem|].
    split; [|split].
    + intros He. apply (projectId_not_empty (Str.trim nameAnswer)); [|exact He].
      now rewrite CaseFacts.trim_idem.
    + apply projectId_noWhiteSpace.
    + apply projectId_noUpperCase.
  - unfold cleanupEvents in H. cbn [In] in H.
    destruct H as [H|[H|[H|[]]]]; discriminate H.
  - apply entryEvents_in in H as (entry & _ & [H|(fileData & _ & H)]); discriminate H.
Qed.

(** X14: the command line handed to the shell is the one of the selection:
    when the index question is answered with [i], the name is not empty and
    [fs.existsSync] of the project id is false, [exec] is called with the
    [git clone] line of the [clone_url] of the [i]-th item of the search
    answer and of the id joined to the current directory, in double quotes.
    (What the shell makes of that line, of a dollar sign in the path say, is
    not part of the statement.) *)
Theorem clone_command_of_the_selection (items : list RepoItem.t) (i : nat)
    (item : RepoItem.t) (nameAnswer confirm : string) (more : list string) :
  fetchItems w searchUrl = Fulfilled items ->
  nth_error items i = Some item ->
  stdin w = Num.toString (N.of_nat i) :: nameAnswer :: confirm :: more ->
  Str.trim nameAnswer <> EmptyString ->
  existsSync w (convertStringToProjectId (Str.trim nameAnswer)) = false ->
  In (EExec (cloneCommand
               (path_join w (cwd w) (convertStringToProjectId (Str.trim nameAnswer)))
               (RepoItem.clone_url item)))
     (trace w).
Proof.
  intros Hf Hn Hs Hname Hd.
  set (template := Template.make (RepoItem.name item) (RepoItem.description item)
                     (RepoItem.html_url item) (RepoItem.clone_url item)).
  assert (Ht : nth_error (templatesOf items) i = Some template)
    by (unfold templatesOf, template;
        exact (map_nth_error _ i items Hn)).
  destruct (shown_index_valid (templatesOf items) i template Ht) as [Hv Hsel].
  set (projectSetup := wizardSetup template nameAnswer (userInfo w)).
  assert (Hc : creates w projectSetup more).
  { exists (templatesOf items), (Num.toString (N.of_nat i)), nameAnswer, confirm.
    split; [split; [|exact Hv]|split; [exact Hname|now rewrite Hsel]].
    exists items. repeat split; [exact Hf| |exact Hs].
    intros ->. destruct i; discriminate Hn. }
  destruct (cli_ends_creation w projectSetup more Hc)
    as (code & before & created & Hcli & Hev & _ & _).
  unfold trace. rewrite Hcli. cbn [events]. apply in_or_app. right. right.
  rewrite <- Hev.
  change (cloneCommand _ _) with (cloneOf w projectSetup).
  destruct (createProject_events w projectSetup more)
    as [[He _]|[(error & _ & _ & He)|[(error & _ & _ & He)|(entries & _ & _ & He)]]].
  - unfold projectSetup in He. cbn [wizardSetup ProjectSetup.id] in He. congruence.
  - rewrite He. cbn [In]. auto.
  - rewrite He. cbn [In]. auto.
  - rewrite He. apply in_or_app. left. cbn [In]. auto.
Qed.

End Directory.

Lemma checked_directory_is_the_id_witness :
  exists nameAnswer : string,
    nth_error (stdin (Scenario.world ["0"; " My Cool  App "; ""])) 1 = Some nameAnswer
    /\ "my-cool-app" = convertStringToProjectId nameAnswer
    /\ "my-cool-app" <> EmptyString
    /\ Str.noWhiteSpace "my-cool-app" = true
    /\ Str.noUpperCase "my-cool-app" = true.
Proof.
  apply (checked_directory_is_the_id (Scenario.world ["0"; " My Cool  App "; ""])).
  vm_compute. tauto.
Defined.

Lemma clone_command_of_the_selection_witness :
  In (EExec (cloneCommand "/home/ada/foo" "https://github.com/jburmeis/web.git"))
     (trace (Scenario.world ["0"; "Foo"; ""])).
Proof.
  apply (clone_command_of_the_selection (Scenario.world ["0"; "Foo"; ""])
           [Scenario.item] 0 Scenario.item "Foo" "" []);
    try reflexivity.
  discriminate.
Defined.

Lemma createProject_changes_only_witness :
  exists (entries : list ManifestEntry) (entry : ManifestEntry) (fileData : string),
    readManifest (Scenario.world [])
      (path_resolve (Scenario.world [])
         (getProjectTargetDirectory (Scenario.world [])
            (wizardSetup Scenario.template "Foo" fallbackUserInfo)) "__template.json")
    = Fulfilled entries
    /\ In entry entries
    /\ "/home/ada/foo/README.md"
       = path_resolve (Scenario.world [])
           (getProjectTargetDirectory (Scenario.world [])
              (wizardSetup Scenario.template "Foo" fallbackUserInfo)) (file entry)
    /\ readFile (Scenario.world []) "/home/ada/foo/README.md" = Fulfilled fileData
    /\ "# foo" ++ String Char.LF "Created 1/5/2024 (en-US)"
       = filterText (Scenario.world [])
           (wizardSetup Scenario.template "Foo" fallbackUserInfo) (keywords entry) fileData.
Proof.
  apply (proj1 (createProject_changes_only (Scenario.world [])
                  (wizardSetup Scenario.template "Foo" fallbackUserInfo) [])).
  vm_compute. tauto.
Defined.
